(** * logger: a shallow embedding of [logger.go]

    The Go package wraps Uber's zap.  The embedding follows the file top to
    bottom: level names, [Config], [New] with its two encoder profiles,
    the global singleton ([InitGlobal], [Get]), contextual derivation
    ([WithContext], [WithFields]), the environment reader ([FromEnv],
    [getEnv]) and the package-level emission wrappers.

    Pointers ([*Logger], [*zap.Logger]) are locations in two finite-map
    heaps, [nil] is [None].  The parts of zap and of the Go runtime that the
    package calls are modelled next to it: [strings.ToUpper], [os.Getenv],
    [zap.Config.Build], [zap.Logger.With] and the leveled emission methods. *)

From Stdlib Require Import ZArith String Ascii List NArith Bool Lia.
From stdpp Require Import base gmap strings list option.

Local Open Scope string_scope.
Local Open Scope list_scope.

(* ===================================================================== *)
(** ** Go strings *)
(* ===================================================================== *)

(** A Go string is a sequence of bytes; [string] (a list of [ascii], one per
    byte) is exactly that.  [==] on Go strings is bytewise: [String.eqb]. *)

Module strings.

(** [c < utf8.RuneSelf] *)
Definition isASCIIByte (c : ascii) : bool := (N_of_ascii c <? 128)%N.

(** ['a' <= c && c <= 'z'] *)
Definition isLowerByte (c : ascii) : bool :=
  ((97 <=? N_of_ascii c) && (N_of_ascii c <=? 122))%N.

(** [c -= 'a' - 'A'] on a lower-case byte, other bytes unchanged *)
Definition upperByte (c : ascii) : ascii :=
  if isLowerByte c then ascii_of_N (N_of_ascii c - 32) else c.

Fixpoint isASCII (s : string) : bool :=
  match s with
  | EmptyString => true
  | String c rest => isASCIIByte c && isASCII rest
  end.

Fixpoint mapBytes (f : ascii -> ascii) (s : string) : string :=
  match s with
  | EmptyString => EmptyString
  | String c rest => String (f c) (mapBytes f rest)
  end.

Section ToUpper.
(** [strings.Map(unicode.ToUpper, s)], the path Go takes when [s] holds a
    byte >= 0x80.  It decodes UTF-8 and consults the Unicode case tables,
    which are not part of this development. *)
Variable unicodeToUpper : string -> string.

(** [strings.ToUpper]: ASCII-only strings are upper-cased byte by byte,
    all others go through the Unicode mapping. *)
Definition ToUpper (s : string) : string :=
  if isASCII s then mapBytes upperByte s else unicodeToUpper s.
End ToUpper.

End strings.

(* ===================================================================== *)
(** ** zapcore: levels, fields, encoder configuration, entries *)
(* ===================================================================== *)

Module zapcore.

(** [zapcore.Level] is an [int8]; the named constants are these seven. *)
Inductive Level : Set :=
| DebugLevel | InfoLevel | WarnLevel | ErrorLevel
| DPanicLevel | PanicLevel | FatalLevel.

Definition levelInt (l : Level) : Z :=
  match l with
  | DebugLevel => -1
  | InfoLevel => 0
  | WarnLevel => 1
  | ErrorLevel => 2
  | DPanicLevel => 3
  | PanicLevel => 4
  | FatalLevel => 5
  end.

(** [func (l Level) Enabled(lvl Level) bool { return lvl >= l }] *)
Definition Enabled (l lvl : Level) : bool := (levelInt l <=? levelInt lvl)%Z.

Inductive FieldValue : Set :=
| StringValue (s : string)
| Int64Value (n : Z)
| BoolValue (b : bool).

Record Field : Set := mkField { Key : string; Value : FieldValue }.

Inductive LevelEncoder : Set := LowercaseLevelEncoder | CapitalColorLevelEncoder.
Inductive TimeEncoder : Set := ISO8601TimeEncoder.
Inductive DurationEncoder : Set := SecondsDurationEncoder | StringDurationEncoder.
Inductive CallerEncoder : Set := ShortCallerEncoder.

(** [zapcore.OmitKey] *)
Definition OmitKey : string := "".
(** [zapcore.DefaultLineEnding] *)
Definition DefaultLineEnding : string := String (ascii_of_N 10) EmptyString.

Record EncoderConfig : Set := mkEncoderConfig {
  TimeKey : string;
  LevelKey : string;
  NameKey : string;
  CallerKey : string;
  FunctionKey : string;
  MessageKey : string;
  StacktraceKey : string;
  LineEnding : string;
  EncodeLevel : LevelEncoder;
  EncodeTime : TimeEncoder;
  EncodeDuration : DurationEncoder;
  EncodeCaller : CallerEncoder
}.

(** What reaches the sink for one emission: the entry proper, the context
    accumulated through [With] followed by the call's own fields, and
    whether a stack trace was captured. *)
Record Entry : Set := mkEntry {
  EntryLevel : Level;
  Message : string;
  Fields : list Field;
  Stack : bool
}.

End zapcore.

Import zapcore.

#[global] Instance Level_eq_dec : EqDecision Level.
Proof. solve_decision. Defined.
#[global] Instance FieldValue_eq_dec : EqDecision FieldValue.
Proof. solve_decision. Defined.
#[global] Instance Field_eq_dec : EqDecision Field.
Proof. solve_decision. Defined.

(* ===================================================================== *)
(** ** zap: configuration, options, logger objects *)
(* ===================================================================== *)

Module zap.

(** [zap.String(key, val)] *)
Definition String (key val : string) : Field := mkField key (StringValue val).

(** The fields of [zap.Config] that [New] sets; the others keep their zero
    value ([DisableCaller], [DisableStacktrace] false, no sampling). *)
Record Config : Set := mkConfig {
  Level : zapcore.Level;
  Development : bool;
  Encoding : string;
  EncoderConfig : zapcore.EncoderConfig;
  OutputPaths : list string;
  ErrorOutputPaths : list string
}.

Inductive Option : Set :=
| AddCallerSkip (skip : Z)
| AddStacktrace (lvl : zapcore.Level).

(** The state of a [zap.Logger] object: its core (level, encoder, the
    context fields added by [With]) and the logger's own switches. *)
Record Logger : Set := mkLogger {
  coreLevel : zapcore.Level;
  coreEncoding : string;
  coreEncoder : zapcore.EncoderConfig;
  coreFields : list Field;
  development : bool;
  addCaller : bool;
  callerSkip : Z;
  addStack : zapcore.Level
}.

Definition applyOption (o : Option) (l : Logger) : Logger :=
  match o with
  | AddCallerSkip n =>
      mkLogger (coreLevel l) (coreEncoding l) (coreEncoder l) (coreFields l)
               (development l) (addCaller l) (callerSkip l + n)%Z (addStack l)
  | AddStacktrace lvl =>
      mkLogger (coreLevel l) (coreEncoding l) (coreEncoder l) (coreFields l)
               (development l) (addCaller l) (callerSkip l) lvl
  end.

(** [log.clone()] followed by [l.core = l.core.With(fields)]: a copy whose
    context is the original's followed by [fields]. *)
Definition withFields (l : Logger) (fields : list Field) : Logger :=
  mkLogger (coreLevel l) (coreEncoding l) (coreEncoder l)
           (coreFields l ++ fields)
           (development l) (addCaller l) (callerSkip l) (addStack l).

(** The logger [Config.Build] assembles when nothing fails: the options
    derived from the config first (development mode, caller annotation,
    stack traces from Warn in development and from Error otherwise), then
    the caller's options in order. *)
Definition built (cfg : Config) (opts : list Option) : Logger :=
  fold_left (fun l o => applyOption o l) opts
    (mkLogger (Level cfg) (Encoding cfg) (EncoderConfig cfg) []
              (Development cfg) true 0
              (if Development cfg then WarnLevel else ErrorLevel)).

End zap.

(* ===================================================================== *)
(** ** package logger: types and constants *)
(* ===================================================================== *)

(** [type LogLevel string] *)
Definition LogLevel : Set := string.

Definition LevelDebug : LogLevel := "DEBUG".
Definition LevelInfo : LogLevel := "INFO".
Definition LevelWarn : LogLevel := "WARN".
Definition LevelError : LogLevel := "ERROR".

Record Config : Set := mkConfig {
  Level : LogLevel;
  Environment : string;
  ServiceName : string
}.

(** Locations; a Go pointer is [option loc], [None] being [nil]. *)
Definition loc : Set := nat.

(** [type Logger struct { *zap.Logger }] *)
Record Logger : Set := mkLogger { Logger_zap : option loc }.

(** [error] values are their messages; [None] is the [nil] error. *)
Definition error : Set := string.

(** [func productionEncoderConfig() zapcore.EncoderConfig] *)
Definition productionEncoderConfig : zapcore.EncoderConfig :=
  {| TimeKey := "timestamp";
     LevelKey := "level";
     NameKey := "logger";
     CallerKey := "caller";
     FunctionKey := zapcore.OmitKey;
     MessageKey := "message";
     StacktraceKey := "stacktrace";
     LineEnding := zapcore.DefaultLineEnding;
     EncodeLevel := LowercaseLevelEncoder;
     EncodeTime := ISO8601TimeEncoder;
     EncodeDuration := SecondsDurationEncoder;
     EncodeCaller := ShortCallerEncoder |}.

(** [func developmentEncoderConfig() zapcore.EncoderConfig] *)
Definition developmentEncoderConfig : zapcore.EncoderConfig :=
  {| TimeKey := "T";
     LevelKey := "L";
     NameKey := "N";
     CallerKey := "C";
     FunctionKey := zapcore.OmitKey;
     MessageKey := "M";
     StacktraceKey := "S";
     LineEnding := zapcore.DefaultLineEnding;
     EncodeLevel := CapitalColorLevelEncoder;
     EncodeTime := ISO8601TimeEncoder;
     EncodeDuration := StringDurationEncoder;
     EncodeCaller := ShortCallerEncoder |}.

(** The first half of [New]: the [zap.Config] literal chosen by
    [cfg.Environment == "production"]. *)
Definition newZapConfig (zapLevel : zapcore.Level) (cfg : Config) : zap.Config :=
  if (Environment cfg =? "production")%string then
    {| zap.Level := zapLevel;
       zap.Development := false;
       zap.Encoding := "json";
       zap.EncoderConfig := productionEncoderConfig;
       zap.OutputPaths := ["stdout"];
       zap.ErrorOutputPaths := ["stderr"] |}
  else
    {| zap.Level := zapLevel;
       zap.Development := true;
       zap.Encoding := "console";
       zap.EncoderConfig := developmentEncoderConfig;
       zap.OutputPaths := ["stdout"];
       zap.ErrorOutputPaths := ["stderr"] |}.

(* ===================================================================== *)
(** ** Program state and outcomes *)
(* ===================================================================== *)

(** The part of the process that the package reads and writes: the objects
    behind [*zap.Logger] and [*Logger] pointers, the package variable
    [globalLogger], how many times the engine was asked to build a logger,
    and what was written to the record sink. *)
Record State : Type := mkState {
  zapHeap : gmap loc zap.Logger;
  heap : gmap loc Logger;
  globalLogger : option loc;
  builds : nat;
  stdout : list Entry
}.

Definition initialState : State := mkState ∅ ∅ None 0 [].

Definition allocZap (l : zap.Logger) (st : State) : loc * State :=
  let p := fresh (dom (zapHeap st)) in
  (p, mkState (<[p := l]> (zapHeap st)) (heap st) (globalLogger st)
              (builds st) (stdout st)).

Definition alloc (l : Logger) (st : State) : loc * State :=
  let p := fresh (dom (heap st)) in
  (p, mkState (zapHeap st) (<[p := l]> (heap st)) (globalLogger st)
              (builds st) (stdout st)).

Definition setGlobalLogger (p : option loc) (st : State) : State :=
  mkState (zapHeap st) (heap st) p (builds st) (stdout st).

Definition countBuild (st : State) : State :=
  mkState (zapHeap st) (heap st) (globalLogger st) (S (builds st)) (stdout st).

Definition write (e : Entry) (st : State) : State :=
  mkState (zapHeap st) (heap st) (globalLogger st) (builds st) (stdout st ++ [e]).

(** [*p] for a [*zap.Logger] and for a [*Logger]; [None] when [p] is [nil]. *)
Definition derefZap (p : option loc) (st : State) : option zap.Logger :=
  p ≫= (fun a => zapHeap st !! a).

Definition deref (p : option loc) (st : State) : option Logger :=
  p ≫= (fun a => heap st !! a).

(** A call returns, panics (nil dereference, or the engine's Panic level) or
    ends the process ([os.Exit] after a Fatal entry). *)
Inductive outcome (A : Type) : Type :=
| Return (a : A) (st : State)
| Panic (st : State)
| Exit (st : State).

Arguments Return {A} a st.
Arguments Panic {A} st.
Arguments Exit {A} st.

Definition stateOf {A} (o : outcome A) : State :=
  match o with
  | Return _ st => st
  | Panic st => st
  | Exit st => st
  end.

Definition M (A : Type) : Type := State -> outcome A.

Definition ret {A} (a : A) : M A := fun st => Return a st.

Definition bind {A B} (m : M A) (k : A -> M B) : M B :=
  fun st =>
    match m st with
    | Return a st' => k a st'
    | Panic st' => Panic st'
    | Exit st' => Exit st'
    end.

Notation "x <- m ;; k" := (bind m (fun x => k))
  (at level 100, m at next level, right associativity).
Notation "m ;;; k" := (bind m (fun _ => k))
  (at level 100, right associativity).

Definition panic {A} : M A := fun st => Panic st.
Definition exit {A} : M A := fun st => Exit st.
Definition modify (f : State -> State) : M unit := fun st => Return tt (f st).
Definition gets {A} (f : State -> A) : M A := fun st => Return (f st) st.

(** Dereference or panic. *)
Definition loadZap (p : option loc) : M zap.Logger :=
  fun st => match derefZap p st with
            | Some l => Return l st
            | None => Panic st
            end.

Definition load (p : option loc) : M Logger :=
  fun st => match deref p st with
            | Some l => Return l st
            | None => Panic st
            end.

(* ===================================================================== *)
(** ** The engine operations the package calls *)
(* ===================================================================== *)

Section Engine.

(** Whether the engine fails to build a logger from a config (unknown
    encoding, a sink that cannot be opened), and with which error.  The
    answer may differ from one attempt to the next. *)
Variable buildError : nat -> zap.Config -> option error.

(** [zap.Config.Build]: a pointer to a new logger and a nil error, or a nil
    pointer and the engine's error. *)
Definition zapBuild (cfg : zap.Config) (opts : list zap.Option)
  : M (option loc * option error) :=
  fun st =>
    match buildError (builds st) cfg with
    | Some e => Return (None, Some e) (countBuild st)
    | None =>
        let '(p, st') := allocZap (zap.built cfg opts) (countBuild st) in
        Return (Some p, None) st'
    end.

(** [func (log *Logger) With(fields ...Field) *Logger]: the receiver itself
    when there is nothing to add, otherwise a clone whose core carries the
    receiver's context followed by [fields]. *)
Definition zapWith (log : option loc) (fields : list Field) : M (option loc) :=
  match fields with
  | [] => ret log
  | _ =>
      l <- loadZap log ;;
      fun st => let '(p, st') := allocZap (zap.withFields l fields) st in
                Return (Some p) st'
  end.

(** What happens after the entry of a call at [lvl] was handled: Fatal ends
    the process, Panic panics, DPanic panics in development. *)
Definition terminal (l : zap.Logger) (lvl : zapcore.Level) : M unit :=
  match lvl with
  | FatalLevel => exit
  | PanicLevel => panic
  | DPanicLevel => if zap.development l then panic else ret tt
  | _ => ret tt
  end.

(** [log.Debug], [log.Info], [log.Warn], [log.Error], [log.Fatal], ...: one
    entry reaches the sink when the core's level enables [lvl], none
    otherwise. *)
Definition zapLog (log : option loc) (lvl : zapcore.Level) (msg : string)
    (fields : list Field) : M unit :=
  l <- loadZap log ;;
  (if zapcore.Enabled (zap.coreLevel l) lvl
   then modify (write (mkEntry lvl msg (zap.coreFields l ++ fields)
                               (zapcore.Enabled (zap.addStack l) lvl)))
   else ret tt) ;;;
  terminal l lvl.

End Engine.

(* ===================================================================== *)
(** ** package logger: functions *)
(* ===================================================================== *)

(** [os.Getenv] over the process environment: the value of the variable,
    empty when the variable is not present. *)
Definition Getenv (env : gmap string string) (key : string) : string :=
  default "" (env !! key).

(** [func getEnv(key, defaultValue string) string] *)
Definition getEnv (env : gmap string string) (key defaultValue : string) : string :=
  let value := Getenv env key in
  if negb (value =? "")%string then value else defaultValue.

(** [func FromEnv() Config] *)
Definition FromEnv (env : gmap string string) : Config :=
  {| Level := getEnv env "LOG_LEVEL" "INFO";
     Environment := getEnv env "APP_ENV" "development";
     ServiceName := getEnv env "APP_NAME" "gath-stack" |}.

(** [func (l *Logger) Sync() error]: [l.Logger.Sync()], the engine's flush
    of the sink behind the logger. *)
Section Flush.

(** What flushing the sink answers in a given state: [None] when it worked,
    the sink's error otherwise. *)
Variable syncError : State -> option error.

(** [func (log *Logger) Sync() error] of zap: [log.core.Sync()]. *)
Definition zapSync (log : option loc) : M (option error) :=
  _ <- loadZap log ;;
  gets syncError.

Definition Sync (l : option loc) : M (option error) :=
  this <- load l ;;
  zapSync (Logger_zap this).

End Flush.

(* ===================================================================== *)
(** ** Vocabulary of the specification *)
(* ===================================================================== *)

(** *** Case-insensitive comparison

    The specification's case-insensitive match, written independently of
    [strings.ToUpper]: two strings match when they are equal after folding
    the letters A-Z to a-z. *)
Definition foldByte (c : ascii) : ascii :=
  if ((65 <=? N_of_ascii c) && (N_of_ascii c <=? 90))%N
  then ascii_of_N (N_of_ascii c + 32) else c.

Definition equalFold (s t : string) : bool :=
  (strings.mapBytes foldByte s =? strings.mapBytes foldByte t)%string.

(** Level resolution as the specification words it. *)
Definition specLevel (level : string) : zapcore.Level :=
  if equalFold level "DEBUG" then DebugLevel
  else if equalFold level "INFO" then InfoLevel
  else if equalFold level "WARN" then WarnLevel
  else if equalFold level "ERROR" then ErrorLevel
  else InfoLevel.

(** What is used of Unicode: upper-casing a string that holds a non-ASCII
    byte never yields one of the level names DEBUG, WARN, ERROR.  (The only
    runes outside ASCII whose upper case is an ASCII letter are U+0131 and
    U+017F, mapped to I and S.) *)
Definition unicodeSound (unicodeToUpper : string -> string) : Prop :=
  forall s, strings.isASCII s = false ->
    unicodeToUpper s <> "DEBUG" /\ unicodeToUpper s <> "WARN"
    /\ unicodeToUpper s <> "ERROR".

Definition allBytes : list ascii := map ascii_of_nat (seq 0 256).

(** The byte-level fact behind [equalFold]: for an ASCII byte [a], [b] has
    the same upper case and is ASCII exactly when both fold to the same byte. *)
Definition byteCheck (a b : ascii) : bool :=
  implb (strings.isASCIIByte a)
    (eqb (Ascii.eqb (strings.upperByte a) (strings.upperByte b)
          && strings.isASCIIByte b)
         (Ascii.eqb (foldByte a) (foldByte b))).

(** *** Encoder profiles *)

Definition encoderKeys (ec : zapcore.EncoderConfig) : list string :=
  [TimeKey ec; LevelKey ec; NameKey ec; CallerKey ec; MessageKey ec;
   StacktraceKey ec].

(** Encoding name, the six field keys, and the function-name key. *)
Definition profile (encoding : string) (ec : zapcore.EncoderConfig)
  : string * list string * string :=
  (encoding, encoderKeys ec, FunctionKey ec).

Definition expectedProfile (environment : string) : string * list string * string :=
  if decide (environment = "production")
  then ("json",
        ["timestamp"; "level"; "logger"; "caller"; "message"; "stacktrace"],
        zapcore.OmitKey)
  else ("console", ["T"; "L"; "N"; "C"; "M"; "S"], zapcore.OmitKey).

(** *** Reading a logger through its pointer *)

(** The engine object behind a [*Logger]. *)
Definition zapOf (l : option loc) (st : State) : option zap.Logger :=
  deref l st ≫= (fun this => derefZap (Logger_zap this) st).

(** The context a logger attaches to every entry. *)
Definition fieldsOf (l : option loc) (st : State) : option (list Field) :=
  zap.coreFields <$> zapOf l st.

(** The entry a logger writes for a call. *)
Definition entryOf (zl : zap.Logger) (lvl : zapcore.Level) (msg : string)
    (fields : list Field) : Entry :=
  mkEntry lvl msg (zap.coreFields zl ++ fields) (zapcore.Enabled (zap.addStack zl) lvl).

(** The options and the two fields [New] passes to the engine. *)
Definition buildOptions : list zap.Option :=
  [zap.AddCallerSkip 1; zap.AddStacktrace ErrorLevel].

Definition permanentFields (cfg : Config) : list Field :=
  [zap.String "service" (ServiceName cfg);
   zap.String "environment" (Environment cfg)].

(** *** Relations between a state and a later one *)

(** Objects are never modified or freed and the sink only grows. *)
Definition extends (st st' : State) : Prop :=
  zapHeap st ⊆ zapHeap st' /\ heap st ⊆ heap st'
  /\ stdout st `prefix_of` stdout st'.

Definition sameGlobal (st st' : State) : Prop :=
  globalLogger st' = globalLogger st.

(** An installed global logger stays installed. *)
Definition keepsGlobal (st st' : State) : Prop :=
  forall p, globalLogger st = Some p -> globalLogger st' = Some p.

Definition quiet (st st' : State) : Prop := stdout st' = stdout st.

(** [m] relates every state to the one it leaves, however it ends. *)
Definition stable {A} (R : State -> State -> Prop) (m : M A) : Prop :=
  forall st, R st (stateOf (m st)).

(** *** Concrete engines, for examples *)

Definition alwaysBuilds : nat -> zap.Config -> option error := fun _ _ => None.
Definition neverBuilds : nat -> zap.Config -> option error :=
  fun _ _ => Some "sink unavailable".
(** An engine whose first build fails and whose later ones succeed. *)
Definition buildsLater : nat -> zap.Config -> option error :=
  fun n _ => match n with O => Some "sink unavailable" | S _ => None end.
(** A stand-in for the Unicode path that leaves its argument alone. *)
Definition bytesUnchanged : string -> string := fun s => s.

Section Package.

Variable unicodeToUpper : string -> string.
Variable buildError : nat -> zap.Config -> option error.

(** The [switch strings.ToUpper(string(cfg.Level))] that opens [New]. *)
Definition resolveLevel (level : LogLevel) : zapcore.Level :=
  let upper := strings.ToUpper unicodeToUpper level in
  if (upper =? LevelDebug)%string then DebugLevel
  else if (upper =? LevelInfo)%string then InfoLevel
  else if (upper =? LevelWarn)%string then WarnLevel
  else if (upper =? LevelError)%string then ErrorLevel
  else InfoLevel.

(** [func New(cfg Config)]: the pair is the pointer and the error, one of
    them nil. *)
Definition New (cfg : Config) : M (option loc * option error) :=
  let zapLevel := resolveLevel (Level cfg) in
  let zapConfig := newZapConfig zapLevel cfg in
  r <- zapBuild buildError zapConfig
         [zap.AddCallerSkip 1; zap.AddStacktrace ErrorLevel] ;;
  match r with
  | (_, Some err) => ret (None, Some ("failed to build logger: " +:+ err))
  | (zapLogger, None) =>
      zapLogger' <- zapWith zapLogger
                      [zap.String "service" (ServiceName cfg);
                       zap.String "environment" (Environment cfg)] ;;
      fun st => let '(p, st') := alloc (mkLogger zapLogger') st in
                Return (Some p, None) st'
  end.

(** [func InitGlobal(cfg Config) error] *)
Definition InitGlobal (cfg : Config) : M (option error) :=
  r <- New cfg ;;
  match r with
  | (_, Some err) => ret (Some err)
  | (logger, None) => modify (setGlobalLogger logger) ;;; ret None
  end.

(** The config [Get] falls back to. *)
Definition defaultConfig : Config :=
  {| Level := LevelInfo;
     Environment := "development";
     ServiceName := "gath-stack" |}.

(** [func Get() *Logger]; the error of [New] is dropped. *)
Definition Get : M (option loc) :=
  g <- gets globalLogger ;;
  (match g with
   | None =>
       r <- New defaultConfig ;;
       modify (setGlobalLogger (fst r))
   | Some _ => ret tt
   end) ;;;
  gets globalLogger.

(** [func (l *Logger) WithContext(fields ...zap.Field) *Logger] *)
Definition WithContext (l : option loc) (fields : list Field) : M (option loc) :=
  this <- load l ;;
  derived <- zapWith (Logger_zap this) fields ;;
  fun st => let '(p, st') := alloc (mkLogger derived) st in
            Return (Some p) st'.

(** The leveled methods [*Logger] inherits from the embedded
    [*zap.Logger]: [l.Debug], [l.Info], [l.Warn], [l.Error], [l.Fatal]. *)
Definition Log (l : option loc) (lvl : zapcore.Level) (msg : string)
    (fields : list Field) : M unit :=
  this <- load l ;;
  zapLog (Logger_zap this) lvl msg fields.

(** [func Debug], [func Info], [func Warn], [func Error], [func Fatal] of
    the package: [Get().Debug(msg, fields...)] and so on. *)
Definition GlobalLog (lvl : zapcore.Level) (msg : string) (fields : list Field)
  : M unit :=
  l <- Get ;;
  Log l lvl msg fields.

Definition Debug := GlobalLog DebugLevel.
Definition Info := GlobalLog InfoLevel.
Definition Warn := GlobalLog WarnLevel.
Definition Error := GlobalLog ErrorLevel.
Definition Fatal := GlobalLog FatalLevel.

(** [func WithFields(fields ...zap.Field) *Logger] *)
Definition WithFields (fields : list Field) : M (option loc) :=
  l <- Get ;;
  WithContext l fields.

(** *** Sequences of calls

    A client of the package is a sequence of calls to its exported
    functions and methods.  [exec] keeps the state a call leaves behind,
    also when the call panicked and the client recovered. *)
Inductive call : Type :=
| CallNew (cfg : Config)
| CallInitGlobal (cfg : Config)
| CallGet
| CallWithContext (l : option loc) (fields : list Field)
| CallWithFields (fields : list Field)
| CallLog (l : option loc) (lvl : zapcore.Level) (msg : string) (fields : list Field)
| CallGlobalLog (lvl : zapcore.Level) (msg : string) (fields : list Field).

Definition exec (c : call) (st : State) : State :=
  match c with
  | CallNew cfg => stateOf (New cfg st)
  | CallInitGlobal cfg => stateOf (InitGlobal cfg st)
  | CallGet => stateOf (Get st)
  | CallWithContext l fields => stateOf (WithContext l fields st)
  | CallWithFields fields => stateOf (WithFields fields st)
  | CallLog l lvl msg fields => stateOf (Log l lvl msg fields st)
  | CallGlobalLog lvl msg fields => stateOf (GlobalLog lvl msg fields st)
  end.

Definition run (cs : list call) (st : State) : State :=
  fold_left (fun s c => exec c s) cs st.

Definition isInitGlobal (c : call) : bool :=
  match c with
  | CallInitGlobal _ => true
  | _ => false
  end.

(** The entries a call appended to the sink. *)
Definition emitted (before after : State) : list Entry :=
  drop (length (stdout before)) (stdout after).

(** *** What [New] builds *)

Definition zapConfigOf (cfg : Config) : zap.Config :=
  newZapConfig (resolveLevel (Level cfg)) cfg.

(** The engine object behind a logger that [New cfg] returns. *)
Definition constructed (cfg : Config) : zap.Logger :=
  zap.withFields (zap.built (zapConfigOf cfg) buildOptions) (permanentFields cfg).

(** *** Derivation

    [derived root st0 d st]: in state [st], [d] is [root] or was obtained
    from it by [WithContext] steps, with any other calls in between. *)
Inductive derived (root : option loc) (st0 : State) : option loc -> State -> Prop :=
| derived_root : derived root st0 root st0
| derived_child l st fields d st' :
    derived root st0 l st ->
    WithContext l fields st = Return d st' ->
    derived root st0 d st'
| derived_later l st c :
    derived root st0 l st ->
    derived root st0 l (exec c st).

Definition noInitGlobal (cs : list call) : bool :=
  forallb (fun c => negb (isInitGlobal c)) cs.

(** The calls that emit: the leveled methods and the package's wrappers. *)
Definition isLog (c : call) : bool :=
  match c with
  | CallLog _ _ _ _ => true
  | CallGlobalLog _ _ _ => true
  | _ => false
  end.

Definition noLog (cs : list call) : bool :=
  forallb (fun c => negb (isLog c)) cs.

(* ===================================================================== *)
(** ** Frame lemmas: what every operation leaves alone *)
(* ===================================================================== *)

#[local] Instance extends_preorder : PreOrder extends.
Proof.
  split.
  - intros st. repeat split; reflexivity.
  - intros a b c (?&?&?) (?&?&?). repeat split; etrans; eauto.
Qed.

#[local] Instance sameGlobal_preorder : PreOrder sameGlobal.
Proof.
  split; [intros a; reflexivity | intros a b c; unfold sameGlobal; congruence].
Qed.

#[local] Instance keepsGlobal_preorder : PreOrder keepsGlobal.
Proof. split; [intros a p H; exact H | intros a b c ? ? p ?; eauto]. Qed.

#[local] Instance quiet_preorder : PreOrder quiet.
Proof.
  split; [intros a; reflexivity | intros a b c; unfold quiet; congruence].
Qed.

Lemma sameGlobal_keeps st st' : sameGlobal st st' -> keepsGlobal st st'.
Proof. unfold sameGlobal, keepsGlobal. intros -> p. done. Qed.

Lemma stable_ret (R : State -> State -> Prop) `{!PreOrder R} {A} (a : A) :
  stable R (ret a).
Proof. intros st. reflexivity. Qed.

Lemma stable_panic (R : State -> State -> Prop) `{!PreOrder R} {A} :
  stable R (@panic A).
Proof. intros st. reflexivity. Qed.

Lemma stable_exit (R : State -> State -> Prop) `{!PreOrder R} {A} :
  stable R (@exit A).
Proof. intros st. reflexivity. Qed.

Lemma stable_gets (R : State -> State -> Prop) `{!PreOrder R} {A} (f : State -> A) :
  stable R (gets f).
Proof. intros st. reflexivity. Qed.

Lemma stable_load (R : State -> State -> Prop) `{!PreOrder R} l :
  stable R (load l).
Proof. intros st. unfold load. destruct (deref l st); reflexivity. Qed.

Lemma stable_loadZap (R : State -> State -> Prop) `{!PreOrder R} l :
  stable R (loadZap l).
Proof. intros st. unfold loadZap. destruct (derefZap l st); reflexivity. Qed.

Lemma stable_modify (R : State -> State -> Prop) f :
  (forall st, R st (f st)) -> stable R (modify f).
Proof. intros H st. apply H. Qed.

Lemma stable_bind (R : State -> State -> Prop) `{!PreOrder R} {A B}
    (m : M A) (k : A -> M B) :
  stable R m -> (forall a, stable R (k a)) -> stable R (bind m k).
Proof.
  intros Hm Hk st. unfold bind. specialize (Hm st).
  destruct (m st) as [a st'| |]; simpl in *; try done.
  etrans; [exact Hm | apply Hk].
Qed.

Lemma stable_allocZap (R : State -> State -> Prop) {A} l (k : loc -> A) :
  (forall st, R st (allocZap l st).2) ->
  stable R (fun st => let '(p, st') := allocZap l st in Return (k p) st').
Proof. intros H st. specialize (H st). by destruct (allocZap l st). Qed.

Lemma stable_alloc (R : State -> State -> Prop) {A} l (k : loc -> A) :
  (forall st, R st (alloc l st).2) ->
  stable R (fun st => let '(p, st') := alloc l st in Return (k p) st').
Proof. intros H st. specialize (H st). by destruct (alloc l st). Qed.

(** One step through the structure of a monadic term. *)
Ltac stable_step :=
  lazymatch goal with
  | |- stable _ (bind _ _) => apply stable_bind; [apply _ | | intros ?]
  | |- stable _ (ret _) => apply stable_ret; apply _
  | |- stable _ panic => apply stable_panic; apply _
  | |- stable _ exit => apply stable_exit; apply _
  | |- stable _ (gets _) => apply stable_gets; apply _
  | |- stable _ (load _) => apply stable_load; apply _
  | |- stable _ (loadZap _) => apply stable_loadZap; apply _
  | |- forall _, _ => intros ?
  end.
Ltac stable_tac := repeat stable_step.

Lemma allocZap_extends l st : extends st (allocZap l st).2.
Proof.
  unfold allocZap; repeat split; simpl; try reflexivity.
  apply insert_subseteq, not_elem_of_dom, is_fresh.
Qed.

Lemma alloc_extends l st : extends st (alloc l st).2.
Proof.
  unfold alloc; repeat split; simpl; try reflexivity.
  apply insert_subseteq, not_elem_of_dom, is_fresh.
Qed.

Lemma countBuild_extends st : extends st (countBuild st).
Proof. repeat split; reflexivity. Qed.

Lemma write_extends e st : extends st (write e st).
Proof. repeat split; simpl; try reflexivity. by apply prefix_app_r. Qed.

Lemma setGlobalLogger_extends p st : extends st (setGlobalLogger p st).
Proof. repeat split; reflexivity. Qed.

Lemma alloc_fresh l st : heap st !! (alloc l st).1 = None.
Proof. apply not_elem_of_dom, is_fresh. Qed.

Lemma deref_alloc l st : deref (Some (alloc l st).1) (alloc l st).2 = Some l.
Proof. unfold deref, alloc. simpl. apply lookup_insert_eq. Qed.

Lemma derefZap_allocZap l st :
  derefZap (Some (allocZap l st).1) (allocZap l st).2 = Some l.
Proof. unfold derefZap, allocZap. simpl. apply lookup_insert_eq. Qed.

Lemma deref_extends l st st' this :
  extends st st' -> deref l st = Some this -> deref l st' = Some this.
Proof.
  intros (_ & Hh & _). destruct l as [p|]; simpl; [|done].
  intros H. eapply lookup_weaken; eauto.
Qed.

Lemma derefZap_extends l st st' zl :
  extends st st' -> derefZap l st = Some zl -> derefZap l st' = Some zl.
Proof.
  intros (Hz & _ & _). destruct l as [p|]; simpl; [|done].
  intros H. eapply lookup_weaken; eauto.
Qed.

Lemma zapOf_extends l st st' zl :
  extends st st' -> zapOf l st = Some zl -> zapOf l st' = Some zl.
Proof.
  intros Hext. unfold zapOf. destruct (deref l st) as [this|] eqn:Hd; [|done].
  simpl. intros Hz. rewrite (deref_extends _ _ _ _ Hext Hd). simpl.
  by apply (derefZap_extends _ st).
Qed.

Lemma zapBuild_extends cfg opts : stable extends (zapBuild buildError cfg opts).
Proof.
  intros st. unfold zapBuild. destruct (buildError _ _); simpl.
  - apply countBuild_extends.
  - etrans; [apply countBuild_extends|].
    apply (allocZap_extends _ (countBuild st)).
Qed.

Lemma zapBuild_sameGlobal cfg opts :
  stable sameGlobal (zapBuild buildError cfg opts).
Proof. intros st. unfold zapBuild. by destruct (buildError _ _). Qed.

Lemma zapBuild_quiet cfg opts : stable quiet (zapBuild buildError cfg opts).
Proof. intros st. unfold zapBuild. by destruct (buildError _ _). Qed.

Lemma zapWith_extends log fields : stable extends (zapWith log fields).
Proof.
  unfold zapWith. destruct fields; stable_tac.
  apply stable_allocZap, allocZap_extends.
Qed.

Lemma zapWith_sameGlobal log fields : stable sameGlobal (zapWith log fields).
Proof. unfold zapWith. destruct fields; stable_tac. by apply stable_allocZap. Qed.

Lemma zapWith_quiet log fields : stable quiet (zapWith log fields).
Proof. unfold zapWith. destruct fields; stable_tac. by apply stable_allocZap. Qed.

Lemma New_extends cfg : stable extends (New cfg).
Proof.
  unfold New. stable_tac; [apply zapBuild_extends|].
  destruct a as [zl [e|]]; stable_tac; [apply zapWith_extends|].
  apply stable_alloc, alloc_extends.
Qed.

Lemma New_sameGlobal cfg : stable sameGlobal (New cfg).
Proof.
  unfold New. stable_tac; [apply zapBuild_sameGlobal|].
  destruct a as [zl [e|]]; stable_tac; [apply zapWith_sameGlobal|].
  by apply stable_alloc.
Qed.

Lemma New_quiet cfg : stable quiet (New cfg).
Proof.
  unfold New. stable_tac; [apply zapBuild_quiet|].
  destruct a as [zl [e|]]; stable_tac; [apply zapWith_quiet|].
  by apply stable_alloc.
Qed.

Lemma InitGlobal_extends cfg : stable extends (InitGlobal cfg).
Proof.
  unfold InitGlobal. stable_tac; [apply New_extends|].
  destruct a as [l [e|]]; stable_tac.
  apply stable_modify, setGlobalLogger_extends.
Qed.

Lemma Get_extends : stable extends Get.
Proof.
  unfold Get. stable_tac. destruct a; stable_tac; [apply New_extends|].
  apply stable_modify, setGlobalLogger_extends.
Qed.

Lemma Get_keepsGlobal : stable keepsGlobal Get.
Proof. intros st p Hp. unfold Get, bind, gets. simpl. by rewrite Hp. Qed.

Lemma WithContext_extends l fields : stable extends (WithContext l fields).
Proof.
  unfold WithContext. stable_tac; [apply zapWith_extends|].
  apply stable_alloc, alloc_extends.
Qed.

Lemma WithContext_sameGlobal l fields : stable sameGlobal (WithContext l fields).
Proof.
  unfold WithContext. stable_tac; [apply zapWith_sameGlobal|].
  by apply stable_alloc.
Qed.

Lemma WithContext_quiet l fields : stable quiet (WithContext l fields).
Proof.
  unfold WithContext. stable_tac; [apply zapWith_quiet|].
  by apply stable_alloc.
Qed.

Lemma terminal_stable (R : State -> State -> Prop) `{!PreOrder R} l lvl :
  stable R (terminal l lvl).
Proof.
  unfold terminal. destruct lvl; try destruct (zap.development l); stable_tac.
Qed.

Lemma zapLog_extends log lvl msg fields : stable extends (zapLog log lvl msg fields).
Proof.
  unfold zapLog. stable_tac; [| apply terminal_stable; apply _].
  destruct (Enabled _ _); stable_tac. apply stable_modify, write_extends.
Qed.

Lemma zapLog_sameGlobal log lvl msg fields :
  stable sameGlobal (zapLog log lvl msg fields).
Proof.
  unfold zapLog. stable_tac; [| apply terminal_stable; apply _].
  destruct (Enabled _ _); stable_tac. by apply stable_modify.
Qed.

Lemma Log_extends l lvl msg fields : stable extends (Log l lvl msg fields).
Proof. unfold Log. stable_tac. apply zapLog_extends. Qed.

Lemma Log_sameGlobal l lvl msg fields : stable sameGlobal (Log l lvl msg fields).
Proof. unfold Log. stable_tac. apply zapLog_sameGlobal. Qed.

Lemma WithFields_extends fields : stable extends (WithFields fields).
Proof.
  unfold WithFields. stable_tac; [apply Get_extends | apply WithContext_extends].
Qed.

Lemma WithFields_keepsGlobal fields : stable keepsGlobal (WithFields fields).
Proof.
  unfold WithFields. stable_tac; [apply Get_keepsGlobal |].
  intros st. apply sameGlobal_keeps, WithContext_sameGlobal.
Qed.

Lemma GlobalLog_extends lvl msg fields :
  stable extends (GlobalLog lvl msg fields).
Proof. unfold GlobalLog. stable_tac; [apply Get_extends | apply Log_extends]. Qed.

Lemma GlobalLog_keepsGlobal lvl msg fields :
  stable keepsGlobal (GlobalLog lvl msg fields).
Proof.
  unfold GlobalLog. stable_tac; [apply Get_keepsGlobal |].
  intros st. apply sameGlobal_keeps, Log_sameGlobal.
Qed.

Lemma exec_extends c st : extends st (exec c st).
Proof.
  destruct c; simpl.
  - apply New_extends.
  - apply InitGlobal_extends.
  - apply Get_extends.
  - apply WithContext_extends.
  - apply WithFields_extends.
  - apply Log_extends.
  - apply GlobalLog_extends.
Qed.

Lemma exec_keepsGlobal c st :
  isInitGlobal c = false -> keepsGlobal st (exec c st).
Proof.
  destruct c; simpl; try done; intros _.
  - apply sameGlobal_keeps, New_sameGlobal.
  - apply Get_keepsGlobal.
  - apply sameGlobal_keeps, WithContext_sameGlobal.
  - apply WithFields_keepsGlobal.
  - apply sameGlobal_keeps, Log_sameGlobal.
  - apply GlobalLog_keepsGlobal.
Qed.

Lemma run_extends cs st : extends st (run cs st).
Proof.
  revert st. induction cs as [|c cs IH]; intros st; simpl; [reflexivity|].
  etrans; [apply exec_extends | apply IH].
Qed.

Lemma run_keepsGlobal cs st :
  noInitGlobal cs = true -> keepsGlobal st (run cs st).
Proof.
  revert st. induction cs as [|c cs IH]; intros st; simpl; [reflexivity|].
  intros [Hc Hcs]%andb_true_iff. apply negb_true_iff in Hc.
  etrans; [by apply exec_keepsGlobal | by apply IH].
Qed.

(* ===================================================================== *)
(** ** What the operations compute *)
(* ===================================================================== *)

Lemma emitted_same st : emitted st st = [].
Proof. unfold emitted. apply drop_all. Qed.

Lemma emitted_write st e : emitted st (write e st) = [e].
Proof. unfold emitted. simpl. by rewrite drop_app_length. Qed.

Lemma withFields_nil zl : zap.withFields zl [] = zl.
Proof. destruct zl. unfold zap.withFields. simpl. by rewrite app_nil_r. Qed.

Lemma withFields_app zl a b :
  zap.withFields (zap.withFields zl a) b = zap.withFields zl (a ++ b).
Proof. unfold zap.withFields. simpl. by rewrite app_assoc. Qed.

Lemma zapBuild_fail cfg opts st e :
  buildError (builds st) cfg = Some e ->
  zapBuild buildError cfg opts st = Return (None, Some e) (countBuild st).
Proof. intros H. unfold zapBuild. by rewrite H. Qed.

Lemma zapBuild_ok cfg opts st :
  buildError (builds st) cfg = None ->
  zapBuild buildError cfg opts st =
    Return (Some (allocZap (zap.built cfg opts) (countBuild st)).1, None)
           (allocZap (zap.built cfg opts) (countBuild st)).2.
Proof. intros H. unfold zapBuild. by rewrite H. Qed.

Lemma zapWith_alloc log f fields st zl :
  derefZap log st = Some zl ->
  zapWith log (f :: fields) st =
    Return (Some (allocZap (zap.withFields zl (f :: fields)) st).1)
           (allocZap (zap.withFields zl (f :: fields)) st).2.
Proof. intros H. unfold zapWith, bind, loadZap. by rewrite H. Qed.

Lemma New_fail cfg st e :
  buildError (builds st) (zapConfigOf cfg) = Some e ->
  New cfg st
  = Return (None, Some ("failed to build logger: " +:+ e)) (countBuild st).
Proof.
  intros H. unfold New, bind. fold (zapConfigOf cfg).
  by rewrite (zapBuild_fail _ _ _ _ H).
Qed.

Lemma New_ok cfg st :
  buildError (builds st) (zapConfigOf cfg) = None ->
  exists l st', New cfg st = Return (Some l, None) st'
                /\ heap st !! l = None
                /\ zapOf (Some l) st' = Some (constructed cfg).
Proof.
  intros H. unfold New, bind. fold (zapConfigOf cfg).
  rewrite (zapBuild_ok _ _ _ H). fold buildOptions.
  set (st1 := (allocZap _ (countBuild st)).2).
  set (zp := (allocZap _ (countBuild st)).1).
  cbv beta iota.
  rewrite (zapWith_alloc (Some zp) _ _ st1 _ (derefZap_allocZap _ _)).
  fold (permanentFields cfg). fold (constructed cfg).
  set (st2 := (allocZap _ st1).2). set (zp' := (allocZap _ st1).1).
  eexists (alloc _ st2).1, (alloc _ st2).2. split; [reflexivity|].
  split; [apply (alloc_fresh _ st2)|].
  unfold zapOf. rewrite deref_alloc. cbn [mbind option_bind Logger_zap].
  apply (derefZap_extends _ st2); [apply alloc_extends | apply derefZap_allocZap].
Qed.

Lemma New_inv cfg st l st1 :
  New cfg st = Return (Some l, None) st1 ->
  buildError (builds st) (zapConfigOf cfg) = None
  /\ heap st !! l = None
  /\ zapOf (Some l) st1 = Some (constructed cfg).
Proof.
  intros HN. destruct (buildError (builds st) (zapConfigOf cfg)) as [e|] eqn:Hb.
  - rewrite (New_fail _ _ _ Hb) in HN. discriminate.
  - destruct (New_ok _ _ Hb) as (l' & st' & HN' & Hfresh & Hz).
    rewrite HN' in HN. injection HN as -> ->. auto.
Qed.

Lemma constructed_level cfg :
  zap.coreLevel (constructed cfg) = resolveLevel (Level cfg).
Proof.
  unfold constructed, zapConfigOf, newZapConfig. by destruct (String.eqb _ _).
Qed.

Lemma constructed_fields cfg : zap.coreFields (constructed cfg) = permanentFields cfg.
Proof. reflexivity. Qed.

Lemma constructed_addStack cfg : zap.addStack (constructed cfg) = ErrorLevel.
Proof. reflexivity. Qed.

Lemma newZapConfig_profile zapLevel cfg :
  profile (zap.Encoding (newZapConfig zapLevel cfg))
          (zap.EncoderConfig (newZapConfig zapLevel cfg))
  = expectedProfile (Environment cfg).
Proof.
  unfold newZapConfig, expectedProfile.
  destruct (String.eqb_spec (Environment cfg) "production") as [->|Hne].
  - reflexivity.
  - by rewrite decide_False.
Qed.

Lemma constructed_profile cfg :
  profile (zap.coreEncoding (constructed cfg)) (zap.coreEncoder (constructed cfg))
  = expectedProfile (Environment cfg).
Proof. apply (newZapConfig_profile (resolveLevel (Level cfg)) cfg). Qed.

Lemma WithContext_ok l fields st zl :
  zapOf l st = Some zl ->
  exists d st', WithContext l fields st = Return (Some d) st'
                /\ heap st !! d = None
                /\ zapOf (Some d) st' = Some (zap.withFields zl fields).
Proof.
  intros Hz. unfold zapOf in Hz.
  destruct (deref l st) as [this|] eqn:Hd; [|done]. simpl in Hz.
  unfold WithContext, bind, load. rewrite Hd.
  destruct fields as [|f fields].
  - simpl zapWith. unfold ret.
    eexists (alloc _ st).1, (alloc _ st).2. split; [reflexivity|].
    split; [apply alloc_fresh|].
    unfold zapOf. rewrite deref_alloc. cbn [mbind option_bind Logger_zap].
    rewrite withFields_nil.
    apply (derefZap_extends _ st); [apply alloc_extends | done].
  - rewrite (zapWith_alloc _ _ _ _ _ Hz).
    set (st1 := (allocZap _ st).2).
    eexists (alloc _ st1).1, (alloc _ st1).2. split; [reflexivity|].
    split; [apply (alloc_fresh _ st1)|].
    unfold zapOf. rewrite deref_alloc. cbn [mbind option_bind Logger_zap].
    apply (derefZap_extends _ st1); [apply alloc_extends | apply derefZap_allocZap].
Qed.

(** A derivation that does not return panicked before it changed anything. *)
Lemma WithContext_stuck l fields st :
  zapOf l st = None ->
  zapHeap (stateOf (WithContext l fields st)) = zapHeap st
  /\ (forall this, deref l st = Some this ->
        deref l (stateOf (WithContext l fields st)) = Some this).
Proof.
  intros Hz. split.
  - unfold zapOf in Hz. unfold WithContext, bind, load.
    destruct (deref l st) as [this|] eqn:Hd; [|done]. simpl in Hz.
    destruct fields as [|f fields]; [reflexivity|].
    unfold zapWith, bind, loadZap. by rewrite Hz.
  - intros this Hd. eapply deref_extends; [apply WithContext_extends | exact Hd].
Qed.

Lemma WithContext_zapOf l fields st :
  zapOf l (stateOf (WithContext l fields st)) = zapOf l st.
Proof.
  destruct (zapOf l st) as [zl|] eqn:Hz.
  - eapply zapOf_extends; [apply WithContext_extends | exact Hz].
  - destruct (WithContext_stuck l fields st Hz) as [Hheap Hd].
    unfold zapOf in *. destruct (deref l st) as [this|] eqn:Hd'.
    + rewrite (Hd this eq_refl). simpl in *.
      unfold derefZap in *. by rewrite Hheap.
    + unfold WithContext, bind, load. rewrite Hd'. simpl. by rewrite Hd'.
Qed.

Lemma Log_state l lvl msg fields st :
  stateOf (Log l lvl msg fields st) =
  match zapOf l st with
  | Some zl => if Enabled (zap.coreLevel zl) lvl
               then write (entryOf zl lvl msg fields) st else st
  | None => st
  end.
Proof.
  unfold Log, zapOf, bind, load. destruct (deref l st) as [this|]; [|done]. cbn.
  unfold zapLog, bind, loadZap. destruct (derefZap _ st) as [zl|]; [|done].
  destruct (Enabled (zap.coreLevel zl) lvl); cbn;
    unfold terminal; destruct lvl; try destruct (zap.development zl); reflexivity.
Qed.

Lemma Log_emitted l lvl msg fields st :
  emitted st (stateOf (Log l lvl msg fields st)) =
  match zapOf l st with
  | Some zl => if Enabled (zap.coreLevel zl) lvl
               then [entryOf zl lvl msg fields] else []
  | None => []
  end.
Proof.
  rewrite Log_state. destruct (zapOf l st) as [zl|]; [|apply emitted_same].
  destruct (Enabled _ _); [apply emitted_write | apply emitted_same].
Qed.

Lemma Get_initialized st l :
  globalLogger st = Some l -> Get st = Return (Some l) st.
Proof. intros H. unfold Get, bind, gets. rewrite H. cbn. by rewrite H. Qed.

Lemma Get_uninitialized st :
  globalLogger st = None ->
  Get st = match New defaultConfig st with
           | Return r st' => Return r.1 (setGlobalLogger r.1 st')
           | Panic st' => Panic st'
           | Exit st' => Exit st'
           end.
Proof.
  intros H. unfold Get, bind, gets. rewrite H.
  destruct (New defaultConfig st) as [r st'| |]; reflexivity.
Qed.

Lemma derived_zapOf root st0 d st zl :
  derived root st0 d st ->
  zapOf root st0 = Some zl ->
  exists extra, zapOf d st = Some (zap.withFields zl extra).
Proof.
  intros Hd Hroot.
  induction Hd as [|l st fields d st' _ [extra IH] HW|l st c _ [extra IH]].
  - exists []. by rewrite withFields_nil.
  - destruct (WithContext_ok _ fields _ _ IH) as (d' & st'' & HW' & _ & Hz).
    rewrite HW' in HW. injection HW as <- <-.
    exists (extra ++ fields). by rewrite <- withFields_app.
  - exists extra. eapply zapOf_extends; [apply exec_extends | exact IH].
Qed.

(* ===================================================================== *)
(** ** Case folding *)
(* ===================================================================== *)

Lemma allBytes_complete c : In c allBytes.
Proof.
  unfold allBytes. apply in_map_iff. exists (nat_of_ascii c). split.
  - apply ascii_nat_embedding.
  - apply in_seq. pose proof (nat_ascii_bounded c). lia.
Qed.

Lemma byteTable_true :
  forallb (fun a => forallb (byteCheck a) allBytes) allBytes = true.
Proof. vm_compute. reflexivity. Qed.

Lemma byteCheck_true a b : byteCheck a b = true.
Proof.
  pose proof (proj1 (forallb_forall _ _) byteTable_true a (allBytes_complete a)) as T.
  exact (proj1 (forallb_forall _ _) T b (allBytes_complete b)).
Qed.

Lemma byteCheck_spec a b :
  strings.isASCIIByte a = true ->
  (strings.upperByte a = strings.upperByte b /\ strings.isASCIIByte b = true)
  <-> foldByte a = foldByte b.
Proof.
  intros Ha. pose proof (byteCheck_true a b) as T. unfold byteCheck in T.
  rewrite Ha in T. cbn [implb] in T. apply eqb_prop in T.
  rewrite <- (Ascii.eqb_eq (foldByte a)), <- T, andb_true_iff, Ascii.eqb_eq.
  reflexivity.
Qed.

Lemma mapBytes_fold_upper s t :
  strings.isASCII s = true ->
  (strings.mapBytes strings.upperByte s = strings.mapBytes strings.upperByte t
   /\ strings.isASCII t = true)
  <-> strings.mapBytes foldByte s = strings.mapBytes foldByte t.
Proof.
  revert t. induction s as [|a s IH]; intros [|b t]; simpl;
    try (intuition congruence).
  intros [Ha Hs]%andb_true_iff. specialize (IH t Hs).
  pose proof (byteCheck_spec a b Ha) as Hab.
  rewrite andb_true_iff. split.
  - intros [[=] [? ?]]. f_equal; [apply Hab | apply IH]; auto.
  - intros [=]. destruct Hab as [_ Hab], IH as [_ IH].
    destruct (Hab ltac:(assumption)), (IH ltac:(assumption)).
    repeat split; auto. congruence.
Qed.

Lemma equalFold_ascii s t :
  strings.isASCII s = true -> strings.isASCII t = true ->
  strings.mapBytes strings.upperByte t = t ->
  (strings.mapBytes strings.upperByte s =? t)%string = equalFold s t.
Proof.
  intros Hs Ht Hup. unfold equalFold.
  apply eq_true_iff_eq. rewrite !String.eqb_eq.
  rewrite <- (mapBytes_fold_upper s t Hs), Hup. tauto.
Qed.

Lemma equalFold_nonascii s t :
  strings.isASCII s = false -> strings.isASCII t = true -> equalFold s t = false.
Proof.
  intros Hs Ht. unfold equalFold. apply String.eqb_neq. intros Heq.
  symmetry in Heq. apply (mapBytes_fold_upper t s Ht) in Heq as [_ Heq].
  congruence.
Qed.

Lemma resolveLevel_specLevel level :
  unicodeSound unicodeToUpper -> resolveLevel level = specLevel level.
Proof.
  intros Hu.
  unfold resolveLevel, specLevel, strings.ToUpper,
    LevelDebug, LevelInfo, LevelWarn, LevelError.
  destruct (strings.isASCII level) eqn:Hascii.
  - rewrite !equalFold_ascii by (done || reflexivity). reflexivity.
  - rewrite !equalFold_nonascii by (done || reflexivity).
    destruct (Hu level Hascii) as (Hd & Hw & He).
    apply String.eqb_neq in Hd, Hw, He. rewrite Hd, Hw, He.
    destruct (String.eqb (unicodeToUpper level) "INFO"); reflexivity.
Qed.

(** [getEnv] on a variable that is unset or set to the empty string. *)
Lemma getEnv_empty env key d : Getenv env key = "" -> getEnv env key d = d.
Proof. intros H. unfold getEnv. by rewrite H. Qed.

Lemma getEnv_nonempty env key d : d <> "" -> getEnv env key d <> "".
Proof.
  intros Hd. unfold getEnv.
  destruct (String.eqb_spec (Getenv env key) ""); simpl; done.
Qed.

Lemma getEnv_insert_delete env key k d :
  getEnv (<[key := ""]> env) k d = getEnv (delete key env) k d.
Proof.
  unfold getEnv, Getenv. destruct (decide (key = k)) as [->|Hne].
  - by rewrite lookup_insert_eq, lookup_delete_eq.
  - by rewrite lookup_insert_ne, lookup_delete_ne.
Qed.

Lemma zapOf_setGlobalLogger l p st : zapOf l (setGlobalLogger p st) = zapOf l st.
Proof. reflexivity. Qed.

Lemma zapOf_heap l st zl : zapOf (Some l) st = Some zl -> is_Some (heap st !! l).
Proof.
  unfold zapOf, deref. simpl. destruct (heap st !! l); [eauto | done].
Qed.

Lemma InitGlobal_fail cfg st e :
  buildError (builds st) (zapConfigOf cfg) = Some e ->
  InitGlobal cfg st
  = Return (Some ("failed to build logger: " +:+ e)) (countBuild st).
Proof. intros H. unfold InitGlobal, bind. by rewrite (New_fail _ _ _ H). Qed.

Lemma InitGlobal_ok cfg st :
  buildError (builds st) (zapConfigOf cfg) = None ->
  exists l st1, New cfg st = Return (Some l, None) st1
                /\ InitGlobal cfg st = Return None (setGlobalLogger (Some l) st1).
Proof.
  intros H. destruct (New_ok _ _ H) as (l & st1 & HN & _).
  exists l, st1. split; [exact HN|]. unfold InitGlobal, bind. by rewrite HN.
Qed.

Lemma InitGlobal_inv cfg st st' :
  InitGlobal cfg st = Return None st' ->
  exists l, globalLogger st' = Some l
            /\ heap st !! l = None
            /\ zapOf (Some l) st' = Some (constructed cfg).
Proof.
  intros HI. destruct (buildError (builds st) (zapConfigOf cfg)) as [e|] eqn:Hb.
  - rewrite (InitGlobal_fail _ _ _ Hb) in HI. discriminate.
  - destruct (InitGlobal_ok _ _ Hb) as (l & st1 & HN & HI').
    rewrite HI' in HI. injection HI as <-.
    destruct (New_inv _ _ _ _ HN) as (_ & Hfresh & Hz). eauto.
Qed.

Lemma Get_after cs st l :
  globalLogger st = Some l -> noInitGlobal cs = true ->
  Get (run cs st) = Return (Some l) (run cs st).
Proof.
  intros Hg Hcs. apply Get_initialized. by apply (run_keepsGlobal cs st).
Qed.

(* ===================================================================== *)
(** ** The specification's claims *)
(* ===================================================================== *)

(** C1: [New] chooses the encoder profile by the exact comparison
    [cfg.Environment == "production"] and by nothing else: whatever the level,
    the config it hands to the engine has the JSON encoding with the keys
    timestamp, level, logger, caller, message, stacktrace when the strings are
    equal, and the console encoding with the keys T, L, N, C, M, S otherwise;
    the function-name key is [OmitKey] in both.  The logger [New] returns
    carries that profile, and [New] fails only when the engine does. *)
Theorem C1_encoder_profile_by_environment (cfg : Config) (st : State) :
  (forall zapLevel,
      profile (zap.Encoding (newZapConfig zapLevel cfg))
              (zap.EncoderConfig (newZapConfig zapLevel cfg))
      = expectedProfile (Environment cfg))
  /\ match New cfg st with
     | Return (l, None) st' =>
         exists zl, zapOf l st' = Some zl
                    /\ profile (zap.coreEncoding zl) (zap.coreEncoder zl)
                       = expectedProfile (Environment cfg)
     | Return (_, Some _) _ => buildError (builds st) (zapConfigOf cfg) <> None
     | _ => False
     end.
Proof.
  split; [intros; apply newZapConfig_profile|].
  destruct (buildError (builds st) (zapConfigOf cfg)) as [e|] eqn:Hb.
  - rewrite (New_fail _ _ _ Hb). done.
  - destruct (New_ok _ _ Hb) as (l & st' & -> & _ & Hz).
    exists (constructed cfg). split; [exact Hz | apply constructed_profile].
Qed.

(** C2: the level [New] resolves from [cfg.Level] is the one the
    case-insensitive match against DEBUG, INFO, WARN, ERROR names, and INFO
    when nothing matches; it is always one of the four thresholds, so
    resolution cannot fail. *)
Theorem C2_level_resolution_case_insensitive (level : LogLevel) :
  unicodeSound unicodeToUpper ->
  resolveLevel level = specLevel level
  /\ (equalFold level "DEBUG" = true -> resolveLevel level = DebugLevel)
  /\ (equalFold level "INFO" = true -> resolveLevel level = InfoLevel)
  /\ (equalFold level "WARN" = true -> resolveLevel level = WarnLevel)
  /\ (equalFold level "ERROR" = true -> resolveLevel level = ErrorLevel)
  /\ (equalFold level "DEBUG" = false -> equalFold level "WARN" = false ->
      equalFold level "ERROR" = false -> resolveLevel level = InfoLevel)
  /\ resolveLevel level ∈ [DebugLevel; InfoLevel; WarnLevel; ErrorLevel].
Proof.
  intros Hu. rewrite (resolveLevel_specLevel level Hu). unfold specLevel.
  split; [reflexivity|].
  repeat split.
  - by intros ->.
  - intros H. pose proof H as H'. unfold equalFold in H'.
    apply String.eqb_eq in H'. unfold equalFold at 1. rewrite H', H. reflexivity.
  - intros H. pose proof H as H'. unfold equalFold in H'.
    apply String.eqb_eq in H'. unfold equalFold at 1 2. rewrite H', H. reflexivity.
  - intros H. pose proof H as H'. unfold equalFold in H'.
    apply String.eqb_eq in H'. unfold equalFold at 1 2 3. rewrite H', H. reflexivity.
  - intros -> -> ->. by destruct (equalFold level "INFO").
  - repeat (destruct (equalFold level _); [set_solver|]). set_solver.
Qed.

(** C3: a logger built by [New] from ServiceName S and Environment E, and
    every logger derived from it through any number of [WithContext] steps
    (other calls in between or not), puts the fields service=S and
    environment=E, E being the configured string itself, on every entry it
    emits; it does emit one whenever the level is enabled, and it can always
    be derived from further. *)
Theorem C3_service_environment_on_every_entry
    (cfg : Config) (st : State) (l : loc) (st1 : State)
    (d : option loc) (st2 : State) :
  New cfg st = Return (Some l, None) st1 ->
  derived (Some l) st1 d st2 ->
  forall lvl msg fields,
    (forall e, e ∈ emitted st2 (stateOf (Log d lvl msg fields st2)) ->
               zap.String "service" (ServiceName cfg) ∈ Fields e
               /\ zap.String "environment" (Environment cfg) ∈ Fields e)
    /\ (Enabled (resolveLevel (Level cfg)) lvl = true ->
        exists e, emitted st2 (stateOf (Log d lvl msg fields st2)) = [e])
    /\ (exists child st3, WithContext d fields st2 = Return child st3
                          /\ derived (Some l) st1 child st3).
Proof.
  intros HN Hd lvl msg fields.
  destruct (New_inv _ _ _ _ HN) as (_ & _ & Hz).
  destruct (derived_zapOf _ _ _ _ _ Hd Hz) as [extra Hzd].
  rewrite Log_emitted, Hzd. cbn [zap.coreLevel zap.withFields].
  rewrite constructed_level.
  split; [|split].
  - intros e He. destruct (Enabled _ lvl); [|by apply elem_of_nil in He].
    apply list_elem_of_singleton in He as ->.
    unfold entryOf. cbn [Fields zap.coreFields zap.withFields].
    rewrite constructed_fields. unfold permanentFields. set_solver.
  - intros ->. eauto.
  - destruct (WithContext_ok _ fields _ _ Hzd) as (c & st3 & HW & _).
    exists (Some c), st3. split; [exact HW|]. eapply derived_child; eauto.
Qed.

(** C4: [InitGlobal] returns an error exactly when the engine fails to
    build, and then it is the wrapped construction error; when the engine
    builds, it installs a logger that did not exist before.  After a second
    successful [InitGlobal], whatever was called in between, every later [Get]
    returns the second logger, which is not the first, as long as nobody
    initializes again. *)
Theorem C4_InitGlobal_fails_or_replaces (cfg : Config) (st : State) :
  match buildError (builds st) (zapConfigOf cfg) with
  | Some e =>
      InitGlobal cfg st
      = Return (Some ("failed to build logger: " +:+ e)) (countBuild st)
  | None =>
      exists l st', InitGlobal cfg st = Return None st'
                    /\ globalLogger st' = Some l
                    /\ heap st !! l = None
                    /\ zapOf (Some l) st' = Some (constructed cfg)
  end
  /\ (forall l1 st1 between cfg2 st2,
        InitGlobal cfg st = Return None st1 ->
        globalLogger st1 = Some l1 ->
        InitGlobal cfg2 (run between st1) = Return None st2 ->
        exists l2, globalLogger st2 = Some l2
                   /\ l2 <> l1
                   /\ forall later, noInitGlobal later = true ->
                        Get (run later st2) = Return (Some l2) (run later st2)).
Proof.
  split.
  - destruct (buildError (builds st) (zapConfigOf cfg)) as [e|] eqn:Hb.
    + by apply InitGlobal_fail.
    + destruct (InitGlobal_ok _ _ Hb) as (l & st1 & HN & HI).
      destruct (New_inv _ _ _ _ HN) as (_ & Hfresh & Hz).
      exists l, (setGlobalLogger (Some l) st1). auto.
  - intros l1 st1 between cfg2 st2 HI1 Hg1 HI2.
    destruct (InitGlobal_inv _ _ _ HI1) as (l1' & Hg1' & _ & Hz1).
    assert (l1' = l1) as -> by congruence.
    destruct (InitGlobal_inv _ _ _ HI2) as (l2 & Hg2 & Hfresh2 & _).
    exists l2. split; [exact Hg2|]. split.
    + intros ->.
      pose proof (zapOf_extends _ _ _ _ (run_extends between st1) Hz1) as Hz.
      apply zapOf_heap in Hz as [? Hz]. congruence.
    + intros later Hlater. by apply Get_after.
Qed.


(** C5: when no global logger is installed and the engine builds, [Get]
    constructs a logger from the default config (Level INFO, Environment
    development, ServiceName gath-stack), installs it and returns it; every
    later [Get] returns that same logger, whatever else is called, until
    somebody calls [InitGlobal]. *)
Theorem C5_Get_installs_default_once (st : State) :
  globalLogger st = None ->
  buildError (builds st) (zapConfigOf defaultConfig) = None ->
  defaultConfig = mkConfig "INFO" "development" "gath-stack"
  /\ exists l st1,
       New defaultConfig st = Return (Some l, None) st1
       /\ Get st = Return (Some l) (setGlobalLogger (Some l) st1)
       /\ heap st !! l = None
       /\ zapOf (Some l) (setGlobalLogger (Some l) st1)
          = Some (constructed defaultConfig)
       /\ zap.coreLevel (constructed defaultConfig) = InfoLevel
       /\ zap.coreEncoding (constructed defaultConfig) = "console"
       /\ zap.coreFields (constructed defaultConfig)
          = [zap.String "service" "gath-stack";
             zap.String "environment" "development"]
       /\ forall later, noInitGlobal later = true ->
            Get (run later (setGlobalLogger (Some l) st1))
            = Return (Some l) (run later (setGlobalLogger (Some l) st1)).
Proof.
  intros Hg Hb. split; [reflexivity|].
  destruct (New_ok _ _ Hb) as (l & st1 & HN & Hfresh & Hz).
  exists l, st1. split; [exact HN|].
  split; [by rewrite (Get_uninitialized _ Hg), HN|].
  split; [exact Hfresh|]. split; [exact Hz|].
  split; [reflexivity|]. split; [reflexivity|]. split; [reflexivity|].
  intros later Hlater. by apply Get_after.
Qed.

(** C6: [Get] always returns (it neither panics nor ends the process), and
    its result type has no error; when nothing is installed and the engine
    fails to build, the error of [New] is dropped, [Get] returns the nil
    pointer and the global logger stays nil. *)
Theorem C6_Get_swallows_construction_failure :
  (forall st, exists r st', Get st = Return r st')
  /\ (forall st e,
        globalLogger st = None ->
        buildError (builds st) (zapConfigOf defaultConfig) = Some e ->
        Get st = Return None (countBuild st)
        /\ globalLogger (countBuild st) = None).
Proof.
  split.
  - intros st. destruct (globalLogger st) as [l|] eqn:Hg.
    + rewrite (Get_initialized _ _ Hg). eauto.
    + rewrite (Get_uninitialized _ Hg).
      destruct (buildError (builds st) (zapConfigOf defaultConfig)) as [e|] eqn:Hb.
      * rewrite (New_fail _ _ _ Hb). eauto.
      * destruct (New_ok _ _ Hb) as (l & st1 & -> & _). eauto.
  - intros st e Hg Hb. split; [|exact Hg].
    rewrite (Get_uninitialized _ Hg), (New_fail _ _ _ Hb).
    unfold setGlobalLogger, countBuild. simpl. by rewrite Hg.
Qed.

(** C7: [WithContext] changes nothing that existed: every object that was
    in the heaps is still there unchanged, the sink and the global logger
    are untouched.  So the parent is the same logger with the same fields
    afterwards, it emits exactly what it would have emitted without the
    derivation, and a field given to the child only is on none of the
    parent's entries. *)
Theorem C7_derivation_leaves_parent
    (parent : option loc) (fields : list Field) (st : State) :
  let st' := stateOf (WithContext parent fields st) in
  deref parent st' = deref parent st
  /\ zapOf parent st' = zapOf parent st
  /\ fieldsOf parent st' = fieldsOf parent st
  /\ (forall lvl msg fs,
        emitted st' (stateOf (Log parent lvl msg fs st'))
        = emitted st (stateOf (Log parent lvl msg fs st)))
  /\ (forall f lvl msg fs e,
        f ∈ fields ->
        (forall ctx, fieldsOf parent st = Some ctx -> f ∉ ctx) ->
        f ∉ fs ->
        e ∈ emitted st' (stateOf (Log parent lvl msg fs st')) ->
        f ∉ Fields e)
  /\ (forall p o, heap st !! p = Some o -> heap st' !! p = Some o)
  /\ (forall p o, zapHeap st !! p = Some o -> zapHeap st' !! p = Some o)
  /\ stdout st' = stdout st
  /\ globalLogger st' = globalLogger st.
Proof.
  intros st'.
  pose proof (WithContext_extends parent fields st) as (Hzh & Hh & _).
  fold st' in Hzh, Hh.
  assert (zapOf parent st' = zapOf parent st) as Hz by apply WithContext_zapOf.
  assert (deref parent st' = deref parent st) as Hd.
  { destruct (deref parent st) as [this|] eqn:Hd.
    - eapply deref_extends; [apply WithContext_extends | exact Hd].
    - unfold st', WithContext, bind, load. rewrite Hd. exact Hd. }
  split; [exact Hd|]. split; [exact Hz|].
  split; [unfold fieldsOf; by rewrite Hz|].
  split; [intros; by rewrite !Log_emitted, Hz|].
  split.
  - intros f lvl msg fs e Hf Hctx Hfs. rewrite Log_emitted, Hz.
    destruct (zapOf parent st) as [zl|] eqn:Hzl; [|by intros ?%elem_of_nil].
    destruct (Enabled _ _); [|by intros ?%elem_of_nil].
    intros ->%list_elem_of_singleton. unfold entryOf. cbn [Fields].
    specialize (Hctx (zap.coreFields zl)). unfold fieldsOf in Hctx.
    rewrite Hzl in Hctx. specialize (Hctx eq_refl).
    rewrite elem_of_app. tauto.
  - split; [intros p o Hp; eapply lookup_weaken; eauto|].
    split; [intros p o Hp; eapply lookup_weaken; eauto|].
    split; [apply WithContext_quiet | apply WithContext_sameGlobal].
Qed.

(** C8: deriving from a logger L with fields [a] and then from the result
    with fields [b] gives a logger whose context is L's fields, then [a],
    then [b]; an entry it emits lists exactly these, followed by the call's
    own fields.  Nothing is merged or dropped, so a key that occurs twice
    is emitted twice. *)
Theorem C8_derivation_appends_in_order
    (L : option loc) (a b : list Field) (st : State) (zl : zap.Logger) :
  zapOf L st = Some zl ->
  exists d1 st1 d2 st2,
    WithContext L a st = Return d1 st1
    /\ WithContext d1 b st1 = Return d2 st2
    /\ fieldsOf d2 st2 = Some (zap.coreFields zl ++ a ++ b)
    /\ forall lvl msg fields,
         emitted st2 (stateOf (Log d2 lvl msg fields st2))
         = if Enabled (zap.coreLevel zl) lvl
           then [mkEntry lvl msg (zap.coreFields zl ++ a ++ b ++ fields)
                         (Enabled (zap.addStack zl) lvl)]
           else [].
Proof.
  intros Hz.
  destruct (WithContext_ok _ a _ _ Hz) as (d1 & st1 & HW1 & _ & Hz1).
  destruct (WithContext_ok _ b _ _ Hz1) as (d2 & st2 & HW2 & _ & Hz2).
  rewrite withFields_app in Hz2.
  exists (Some d1), st1, (Some d2), st2.
  split; [exact HW1|]. split; [exact HW2|].
  split; [unfold fieldsOf; by rewrite Hz2|].
  intros lvl msg fields. rewrite Log_emitted, Hz2. unfold entryOf.
  cbn [zap.withFields zap.coreLevel zap.coreFields zap.addStack].
  by rewrite <- !app_assoc.
Qed.

(** C9: a logger built by [New] writes nothing for a call below the level
    resolved from its config and exactly one entry for a call at or above
    it, at any later time.  Built with Level WARN, it is silent for Debug
    and Info calls and writes for Warn and Error calls. *)
Theorem C9_minimum_level_filter
    (cfg : Config) (st : State) (l : loc) (st1 : State) :
  New cfg st = Return (Some l, None) st1 ->
  forall calls lvl msg fields,
    let st2 := run calls st1 in
    let out := emitted st2 (stateOf (Log (Some l) lvl msg fields st2)) in
    let entry := mkEntry lvl msg (permanentFields cfg ++ fields)
                         (Enabled ErrorLevel lvl) in
    ((levelInt lvl < levelInt (resolveLevel (Level cfg)))%Z -> out = [])
    /\ ((levelInt (resolveLevel (Level cfg)) <= levelInt lvl)%Z -> out = [entry])
    /\ (Level cfg = LevelWarn ->
        (lvl = DebugLevel \/ lvl = InfoLevel -> out = [])
        /\ (lvl = WarnLevel \/ lvl = ErrorLevel -> out = [entry])).
Proof.
  intros HN calls lvl msg fields st2 out entry.
  destruct (New_inv _ _ _ _ HN) as (_ & _ & Hz).
  pose proof (zapOf_extends _ _ _ _ (run_extends calls st1) Hz) as Hz2.
  assert (out = if Enabled (resolveLevel (Level cfg)) lvl then [entry] else [])
    as Hout.
  { unfold out, st2. rewrite Log_emitted, Hz2, constructed_level. reflexivity. }
  rewrite Hout. unfold Enabled.
  split; [intros H; by rewrite (proj2 (Z.leb_gt _ _) H)|].
  split; [intros H; by rewrite (proj2 (Z.leb_le _ _) H)|].
  intros ->. split; intros [-> | ->]; reflexivity.
Qed.

(** C10: for each of LOG_LEVEL, APP_ENV and APP_NAME (and for any other
    variable), [FromEnv] gives the same config whether the variable is set to
    the empty string or unset; either way the field is the default (INFO,
    development, gath-stack); and no field of a config [FromEnv] returns is
    the empty string. *)
Theorem C10_empty_variable_is_unset (env : gmap string string) (key : string) :
  FromEnv (<[key := ""]> env) = FromEnv (delete key env)
  /\ Level (FromEnv (<["LOG_LEVEL" := ""]> env)) = "INFO"
  /\ Level (FromEnv (delete "LOG_LEVEL" env)) = "INFO"
  /\ Environment (FromEnv (<["APP_ENV" := ""]> env)) = "development"
  /\ Environment (FromEnv (delete "APP_ENV" env)) = "development"
  /\ ServiceName (FromEnv (<["APP_NAME" := ""]> env)) = "gath-stack"
  /\ ServiceName (FromEnv (delete "APP_NAME" env)) = "gath-stack"
  /\ Level (FromEnv env) <> ""
  /\ Environment (FromEnv env) <> ""
  /\ ServiceName (FromEnv env) <> "".
Proof.
  split; [unfold FromEnv; by rewrite !getEnv_insert_delete|].
  unfold FromEnv. cbn [Level Environment ServiceName].
  repeat split;
    try (apply getEnv_empty; unfold Getenv;
         by rewrite ?lookup_insert_eq, ?lookup_delete_eq);
    by apply getEnv_nonempty.
Qed.

(* ===================================================================== *)
(** ** Further properties of the package *)
(* ===================================================================== *)

Lemma New_ok_state cfg st :
  buildError (builds st) (zapConfigOf cfg) = None ->
  let st1 := (allocZap (zap.built (zapConfigOf cfg) buildOptions) (countBuild st)).2 in
  let st2 := (allocZap (constructed cfg) st1).2 in
  New cfg st
  = Return (Some (alloc (mkLogger (Some (allocZap (constructed cfg) st1).1)) st2).1, None)
           (alloc (mkLogger (Some (allocZap (constructed cfg) st1).1)) st2).2.
Proof.
  intros H st1 st2. unfold New, bind. fold (zapConfigOf cfg).
  rewrite (zapBuild_ok _ _ _ H). fold buildOptions. fold st1.
  set (zp := (allocZap _ (countBuild st)).1).
  cbv beta iota.
  rewrite (zapWith_alloc (Some zp) _ _ st1 _ (derefZap_allocZap _ _)).
  reflexivity.
Qed.

Lemma New_builds cfg st : builds (stateOf (New cfg st)) = S (builds st).
Proof.
  destruct (buildError (builds st) (zapConfigOf cfg)) as [e|] eqn:Hb.
  - by rewrite (New_fail _ _ _ Hb).
  - by rewrite (New_ok_state _ _ Hb).
Qed.

Lemma resolveLevel_four level :
  resolveLevel level ∈ [DebugLevel; InfoLevel; WarnLevel; ErrorLevel].
Proof.
  unfold resolveLevel. repeat (destruct (String.eqb _ _); [set_solver|]).
  set_solver.
Qed.

Lemma InitGlobal_quiet cfg : stable quiet (InitGlobal cfg).
Proof.
  unfold InitGlobal. stable_tac; [apply New_quiet|].
  destruct a as [l [e|]]; stable_tac. by apply stable_modify.
Qed.

Lemma Get_quiet : stable quiet Get.
Proof.
  unfold Get. stable_tac. destruct a; stable_tac; [apply New_quiet|].
  by apply stable_modify.
Qed.

Lemma WithFields_quiet fields : stable quiet (WithFields fields).
Proof.
  unfold WithFields. stable_tac; [apply Get_quiet | apply WithContext_quiet].
Qed.

Lemma Get_fails st e :
  globalLogger st = None ->
  buildError (builds st) (zapConfigOf defaultConfig) = Some e ->
  Get st = Return None (countBuild st).
Proof.
  intros Hg Hb. rewrite (Get_uninitialized _ Hg), (New_fail _ _ _ Hb).
  unfold setGlobalLogger, countBuild. simpl. by rewrite Hg.
Qed.

Lemma Get_builds st :
  globalLogger st = None ->
  buildError (builds st) (zapConfigOf defaultConfig) = None ->
  exists l st1, New defaultConfig st = Return (Some l, None) st1
                /\ Get st = Return (Some l) (setGlobalLogger (Some l) st1)
                /\ zapOf (Some l) st1 = Some (constructed defaultConfig).
Proof.
  intros Hg Hb. destruct (New_ok _ _ Hb) as (l & st1 & HN & _ & Hz).
  exists l, st1. split; [exact HN|]. split; [|exact Hz].
  by rewrite (Get_uninitialized _ Hg), HN.
Qed.

(** X1: [New] returns either a logger and no error or no logger and an
    error, never both and never neither.  The error is the engine's, behind
    the prefix "failed to build logger: ", and then nothing was allocated; a
    returned logger is a new, usable pointer.  Either way [New] asks the
    engine for exactly one build and leaves the global logger alone. *)
Theorem X1_New_result_and_footprint (cfg : Config) (st : State) :
  exists l err st',
    New cfg st = Return (l, err) st'
    /\ (l = None <-> err <> None)
    /\ (forall e, err = Some e ->
          exists cause, buildError (builds st) (zapConfigOf cfg) = Some cause
                        /\ e = "failed to build logger: " +:+ cause
                        /\ heap st' = heap st /\ zapHeap st' = zapHeap st)
    /\ (forall p, l = Some p ->
          heap st !! p = None /\ zapOf l st' = Some (constructed cfg))
    /\ globalLogger st' = globalLogger st
    /\ builds st' = S (builds st).
Proof.
  pose proof (New_sameGlobal cfg st) as Hg.
  pose proof (New_builds cfg st) as Hn.
  destruct (buildError (builds st) (zapConfigOf cfg)) as [cause|] eqn:Hb.
  - rewrite (New_fail _ _ _ Hb) in Hg, Hn |- *.
    eexists None, (Some _), _. split; [reflexivity|].
    split; [split; [done | reflexivity]|].
    split; [intros e [= <-]; exists cause; auto|].
    split; [intros p [=]|]. auto.
  - destruct (New_ok _ _ Hb) as (l & st' & HN & Hfresh & Hz).
    rewrite HN in Hg, Hn |- *.
    exists (Some l), None, st'. split; [reflexivity|].
    split; [split; [intros [=] | intros H; by destruct H]|].
    split; [intros e [=]|].
    split; [intros p [= <-]; auto|]. auto.
Qed.

(** X2: a logger derived from one that [New] built, through any number of
    [WithContext] steps and whatever else was called meanwhile, keeps
    everything but the context: the level resolved from the config, the
    encoder profile of the environment, caller annotation one frame up, and
    stack traces from Error upwards (also in development).  Its context
    starts with the two permanent fields.  It writes nothing below that
    level and one entry at or above it. *)
Theorem X2_derived_logger_keeps_settings
    (cfg : Config) (st : State) (l : loc) (st1 : State)
    (d : option loc) (st2 : State) :
  New cfg st = Return (Some l, None) st1 ->
  derived (Some l) st1 d st2 ->
  exists zl extra,
    zapOf d st2 = Some zl
    /\ zap.coreLevel zl = resolveLevel (Level cfg)
    /\ profile (zap.coreEncoding zl) (zap.coreEncoder zl)
       = expectedProfile (Environment cfg)
    /\ zap.addCaller zl = true
    /\ zap.callerSkip zl = 1%Z
    /\ zap.addStack zl = ErrorLevel
    /\ zap.coreFields zl = permanentFields cfg ++ extra
    /\ forall lvl msg fields,
         emitted st2 (stateOf (Log d lvl msg fields st2))
         = if Enabled (resolveLevel (Level cfg)) lvl
           then [mkEntry lvl msg (permanentFields cfg ++ extra ++ fields)
                         (Enabled ErrorLevel lvl)]
           else [].
Proof.
  intros HN Hd.
  destruct (New_inv _ _ _ _ HN) as (_ & _ & Hz).
  destruct (derived_zapOf _ _ _ _ _ Hd Hz) as [extra Hzd].
  exists (zap.withFields (constructed cfg) extra), extra.
  split; [exact Hzd|].
  split; [apply constructed_level|].
  split; [apply constructed_profile|].
  split; [reflexivity|]. split; [reflexivity|]. split; [reflexivity|].
  split; [reflexivity|].
  intros lvl msg fields. rewrite Log_emitted, Hzd.
  cbn [zap.coreLevel zap.withFields]. rewrite constructed_level.
  unfold entryOf. cbn [zap.coreFields zap.addStack zap.withFields].
  rewrite constructed_fields, constructed_addStack. by rewrite <- app_assoc.
Qed.

(** X3: when the engine fails to build, [InitGlobal] changes nothing a
    caller can see: the global logger stays what it was, so [Get] still
    returns a previously installed logger, and every existing logger is
    untouched. *)
Theorem X3_failed_InitGlobal_keeps_previous (cfg : Config) (st : State) (e : error) :
  buildError (builds st) (zapConfigOf cfg) = Some e ->
  let st' := stateOf (InitGlobal cfg st) in
  globalLogger st' = globalLogger st
  /\ heap st' = heap st
  /\ zapHeap st' = zapHeap st
  /\ stdout st' = stdout st
  /\ (forall l, globalLogger st = Some l -> Get st' = Return (Some l) st').
Proof.
  intros Hb st'. unfold st'. rewrite (InitGlobal_fail _ _ _ Hb). simpl.
  repeat split. intros l Hl. by apply Get_initialized.
Qed.

(** X4: a [Get] whose implicit construction failed leaves the package
    uninitialized, so the next [Get] tries again: if the engine builds this
    time, that call installs and returns the default logger. *)
Theorem X4_Get_retries_after_failure (st : State) (e : error) :
  globalLogger st = None ->
  buildError (builds st) (zapConfigOf defaultConfig) = Some e ->
  buildError (S (builds st)) (zapConfigOf defaultConfig) = None ->
  Get st = Return None (countBuild st)
  /\ exists l st2,
       Get (countBuild st) = Return (Some l) st2
       /\ globalLogger st2 = Some l
       /\ zapOf (Some l) st2 = Some (constructed defaultConfig).
Proof.
  intros Hg Hb1 Hb2. split; [by apply (Get_fails st e)|].
  destruct (Get_builds (countBuild st) Hg Hb2) as (l & st1 & _ & HG & Hz).
  exists l, (setGlobalLogger (Some l) st1). auto.
Qed.

Lemma Log_result l lvl msg fields st zl :
  zapOf l st = Some zl ->
  Log l lvl msg fields st
  = terminal zl lvl
      (if Enabled (zap.coreLevel zl) lvl
       then write (entryOf zl lvl msg fields) st else st).
Proof.
  intros Hz. unfold zapOf in Hz. unfold Log, bind, load.
  destruct (deref l st) as [this|]; [|done]. simpl in Hz.
  unfold zapLog, bind, loadZap. rewrite Hz.
  by destruct (Enabled (zap.coreLevel zl) lvl).
Qed.

Lemma Log_nil lvl msg fields st : Log None lvl msg fields st = Panic st.
Proof. reflexivity. Qed.

Lemma emitted_quiet st st' st'' :
  stdout st' = stdout st -> emitted st st'' = emitted st' st''.
Proof. intros H. unfold emitted. by rewrite H. Qed.

Lemma exec_quiet c st : isLog c = false -> stdout (exec c st) = stdout st.
Proof.
  destruct c; simpl; try done; intros _.
  - apply New_quiet.
  - apply InitGlobal_quiet.
  - apply Get_quiet.
  - apply WithContext_quiet.
  - apply WithFields_quiet.
Qed.

(** X5: on a package that was never initialized and an engine that builds,
    the package-level [Debug], [Info], [Warn], [Error] install the default
    logger on the way and log through it: nothing for Debug, and for the
    others one entry that starts with service=gath-stack and
    environment=development, with a stack trace from Error upwards. *)
Theorem X5_package_calls_use_default_logger (st : State) :
  globalLogger st = None ->
  buildError (builds st) (zapConfigOf defaultConfig) = None ->
  forall lvl msg fields,
    emitted st (stateOf (GlobalLog lvl msg fields st))
    = (if Enabled InfoLevel lvl
       then [mkEntry lvl msg
               ([zap.String "service" "gath-stack";
                 zap.String "environment" "development"] ++ fields)
               (Enabled ErrorLevel lvl)]
       else [])
    /\ is_Some (globalLogger (stateOf (GlobalLog lvl msg fields st))).
Proof.
  intros Hg Hb lvl msg fields.
  destruct (Get_builds st Hg Hb) as (l & st1 & HN & HG & Hz).
  unfold GlobalLog, bind. rewrite HG.
  set (st1' := setGlobalLogger (Some l) st1).
  assert (stdout st1' = stdout st) as Hq.
  { pose proof (New_quiet defaultConfig st) as Hq. by rewrite HN in Hq. }
  split.
  - rewrite (emitted_quiet st st1' _ Hq), Log_emitted.
    unfold st1'. rewrite zapOf_setGlobalLogger, Hz. reflexivity.
  - rewrite (Log_sameGlobal (Some l) lvl msg fields st1'). by exists l.
Qed.

(** X6: on a package that was never initialized and an engine that fails to
    build, every package-level logging call and [WithFields] panics on the
    nil logger [Get] hands back, at every level; nothing is written, and
    [Fatal] does not reach its exit. *)
Theorem X6_package_calls_panic_without_logger (st : State) (e : error) :
  globalLogger st = None ->
  buildError (builds st) (zapConfigOf defaultConfig) = Some e ->
  (forall lvl msg fields,
      GlobalLog lvl msg fields st = Panic (countBuild st))
  /\ (forall fields, WithFields fields st = Panic (countBuild st))
  /\ stdout (countBuild st) = stdout st.
Proof.
  intros Hg Hb. split; [|split; [|reflexivity]].
  - intros lvl msg fields. unfold GlobalLog, bind.
    by rewrite (Get_fails st e Hg Hb).
  - intros fields. unfold WithFields, bind.
    by rewrite (Get_fails st e Hg Hb).
Qed.

(** X7: after a successful [InitGlobal cfg], and until the next one, the
    package-level [Debug], [Info], [Warn], [Error] return after writing
    through the installed logger (one entry with the permanent fields when
    the level of [cfg] enables the call, nothing otherwise), and [Fatal]
    always writes its entry, with a stack trace, and then ends the process. *)
Theorem X7_package_calls_after_InitGlobal
    (cfg : Config) (st st1 : State) (calls : list call) :
  InitGlobal cfg st = Return None st1 ->
  noInitGlobal calls = true ->
  let st2 := run calls st1 in
  forall msg fields,
    Fatal msg fields st2
    = Exit (write (mkEntry FatalLevel msg (permanentFields cfg ++ fields) true) st2)
    /\ forall lvl, lvl ∈ [DebugLevel; InfoLevel; WarnLevel; ErrorLevel] ->
         GlobalLog lvl msg fields st2
         = Return tt
             (if Enabled (resolveLevel (Level cfg)) lvl
              then write (mkEntry lvl msg (permanentFields cfg ++ fields)
                                  (Enabled ErrorLevel lvl)) st2
              else st2).
Proof.
  intros HI Hcalls st2 msg fields.
  destruct (InitGlobal_inv _ _ _ HI) as (l & Hg & _ & Hz).
  assert (globalLogger st2 = Some l) as Hg2 by (by apply (run_keepsGlobal calls st1)).
  pose proof (zapOf_extends _ _ _ _ (run_extends calls st1) Hz) as Hz2.
  fold st2 in Hz2.
  assert (forall lvl, GlobalLog lvl msg fields st2
                      = terminal (constructed cfg) lvl
                          (if Enabled (resolveLevel (Level cfg)) lvl
                           then write (mkEntry lvl msg (permanentFields cfg ++ fields)
                                               (Enabled ErrorLevel lvl)) st2
                           else st2)) as HL.
  { intros lvl. unfold GlobalLog, bind. rewrite (Get_initialized _ _ Hg2).
    rewrite (Log_result _ lvl msg fields _ _ Hz2), constructed_level.
    reflexivity. }
  split.
  - unfold Fatal. rewrite HL.
    pose proof (resolveLevel_four (Level cfg)) as Hr.
    assert (Enabled (resolveLevel (Level cfg)) FatalLevel = true) as ->.
    { set_unfold. destruct Hr as [-> | [-> | [-> | [-> | []]]]]; reflexivity. }
    reflexivity.
  - intros lvl Hlvl. rewrite HL.
    set_unfold. destruct Hlvl as [-> | [-> | [-> | [-> | []]]]]; reflexivity.
Qed.

(** X8: with a logger installed, [WithFields] returns a new logger whose
    context is the global logger's followed by the given fields; the global
    logger itself is still installed and has the fields it had. *)
Theorem X8_WithFields_derives_from_global
    (st : State) (l : loc) (zl : zap.Logger) (fields : list Field) :
  globalLogger st = Some l ->
  zapOf (Some l) st = Some zl ->
  exists d st',
    WithFields fields st = Return (Some d) st'
    /\ WithFields fields st = WithContext (Some l) fields st
    /\ d <> l
    /\ fieldsOf (Some d) st' = Some (zap.coreFields zl ++ fields)
    /\ fieldsOf (Some l) st' = Some (zap.coreFields zl)
    /\ Get st' = Return (Some l) st'.
Proof.
  intros Hg Hz.
  assert (WithFields fields st = WithContext (Some l) fields st) as HW.
  { unfold WithFields, bind. by rewrite (Get_initialized _ _ Hg). }
  destruct (WithContext_ok _ fields _ _ Hz) as (d & st' & HW' & Hfresh & Hzd).
  exists d, st'. split; [by rewrite HW|]. split; [exact HW|].
  pose proof (WithContext_extends (Some l) fields st) as Hext.
  pose proof (WithContext_sameGlobal (Some l) fields st) as Hsame.
  rewrite HW' in Hext, Hsame. simpl in Hext, Hsame.
  split.
  - intros ->. apply zapOf_heap in Hz as [? Hz]. congruence.
  - split; [unfold fieldsOf; by rewrite Hzd|].
    split; [unfold fieldsOf; by rewrite (zapOf_extends _ _ _ _ Hext Hz)|].
    apply Get_initialized. unfold sameGlobal in Hsame. congruence.
Qed.

Lemma getEnv_set env key d v :
  env !! key = Some v -> v <> "" -> getEnv env key d = v.
Proof.
  intros Hk Hv. unfold getEnv, Getenv. rewrite Hk. simpl.
  by destruct (String.eqb_spec v "").
Qed.

Lemma getEnv_other env key k v d :
  k <> key ->
  getEnv (<[k := v]> env) key d = getEnv env key d
  /\ getEnv (delete k env) key d = getEnv env key d.
Proof.
  intros Hne. unfold getEnv, Getenv.
  by rewrite lookup_insert_ne, lookup_delete_ne.
Qed.

(** X9: [FromEnv] hands a non-empty value of LOG_LEVEL, APP_ENV or APP_NAME
    to the config exactly as it is (no trimming, no change of case, no
    validation), and reads no other variable: setting or removing any other
    one does not change the config. *)
Theorem X9_FromEnv_verbatim (env : gmap string string) :
  (forall v, env !! "LOG_LEVEL" = Some v -> v <> "" -> Level (FromEnv env) = v)
  /\ (forall v, env !! "APP_ENV" = Some v -> v <> "" ->
        Environment (FromEnv env) = v)
  /\ (forall v, env !! "APP_NAME" = Some v -> v <> "" ->
        ServiceName (FromEnv env) = v)
  /\ (forall k v, k <> "LOG_LEVEL" -> k <> "APP_ENV" -> k <> "APP_NAME" ->
        FromEnv (<[k := v]> env) = FromEnv env
        /\ FromEnv (delete k env) = FromEnv env).
Proof.
  unfold FromEnv. cbn [Level Environment ServiceName].
  split; [intros; by apply getEnv_set|].
  split; [intros; by apply getEnv_set|].
  split; [intros; by apply getEnv_set|].
  intros k v H1 H2 H3.
  destruct (getEnv_other env "LOG_LEVEL" k v "INFO" H1) as [-> ->].
  destruct (getEnv_other env "APP_ENV" k v "development" H2) as [-> ->].
  destruct (getEnv_other env "APP_NAME" k v "gath-stack" H3) as [-> ->].
  done.
Qed.

(** X10: with LOG_LEVEL, APP_ENV and APP_NAME all unset or empty, [FromEnv]
    returns exactly the config [Get] falls back to; so on a package that
    was never initialized, [InitGlobal(FromEnv())] leaves the same state as
    a first [Get]. *)
Theorem X10_FromEnv_default_is_Get_default (env : gmap string string) :
  Getenv env "LOG_LEVEL" = "" ->
  Getenv env "APP_ENV" = "" ->
  Getenv env "APP_NAME" = "" ->
  FromEnv env = defaultConfig
  /\ forall st, globalLogger st = None ->
       stateOf (InitGlobal (FromEnv env) st) = stateOf (Get st).
Proof.
  intros H1 H2 H3.
  assert (FromEnv env = defaultConfig) as ->.
  { unfold FromEnv. by rewrite !getEnv_empty. }
  split; [reflexivity|]. intros st Hg.
  destruct (buildError (builds st) (zapConfigOf defaultConfig)) as [e|] eqn:Hb.
  - by rewrite (InitGlobal_fail _ _ _ Hb), (Get_fails st e Hg Hb).
  - destruct (InitGlobal_ok _ _ Hb) as (l & st1 & HN & ->).
    by rewrite (Get_uninitialized _ Hg), HN.
Qed.

(** X11: [Sync] on a nil logger panics, so [Get().Sync()] panics when the
    implicit construction failed; on an existing logger it returns the
    engine's flush error as it is (not wrapped, unlike [New]'s) and changes
    nothing. *)
Theorem X11_Sync_nil_panics_else_passes_error
    (syncError : State -> option error) (st : State) :
  Sync syncError None st = Panic st
  /\ (forall e,
        globalLogger st = None ->
        buildError (builds st) (zapConfigOf defaultConfig) = Some e ->
        (l <- Get ;; Sync syncError l) st = Panic (countBuild st))
  /\ (forall l zl,
        zapOf l st = Some zl ->
        Sync syncError l st = Return (syncError st) st).
Proof.
  split; [reflexivity|]. split.
  - intros e Hg Hb. unfold bind. by rewrite (Get_fails st e Hg Hb).
  - intros l zl Hz. unfold zapOf in Hz. unfold Sync, bind, load.
    destruct (deref l st) as [this|]; [|done]. simpl in Hz.
    unfold zapSync, bind, loadZap. by rewrite Hz.
Qed.

(** X12: loggers are immutable.  Whatever is called afterwards, through
    the package or on any logger, an existing logger keeps its level, its
    encoder and its fields, and emits for a call exactly what it would have
    emitted before. *)
Theorem X12_loggers_are_immutable
    (l : option loc) (zl : zap.Logger) (st : State) (calls : list call) :
  zapOf l st = Some zl ->
  zapOf l (run calls st) = Some zl
  /\ forall lvl msg fields,
       emitted (run calls st) (stateOf (Log l lvl msg fields (run calls st)))
       = emitted st (stateOf (Log l lvl msg fields st)).
Proof.
  intros Hz.
  pose proof (zapOf_extends _ _ _ _ (run_extends calls st) Hz) as Hz'.
  split; [exact Hz'|]. intros. by rewrite !Log_emitted, Hz, Hz'.
Qed.

(** X13: every successful [New] returns a logger of its own: the pointer
    differs from the one an earlier [New] returned, also for an equal
    config, and the earlier logger is still what its config made it. *)
Theorem X13_New_instances_are_distinct
    (cfg1 cfg2 : Config) (st st1 st2 : State) (l1 l2 : loc) (calls : list call) :
  New cfg1 st = Return (Some l1, None) st1 ->
  New cfg2 (run calls st1) = Return (Some l2, None) st2 ->
  l1 <> l2
  /\ zapOf (Some l1) st2 = Some (constructed cfg1)
  /\ zapOf (Some l2) st2 = Some (constructed cfg2).
Proof.
  intros HN1 HN2.
  destruct (New_inv _ _ _ _ HN1) as (_ & _ & Hz1).
  destruct (New_inv _ _ _ _ HN2) as (_ & Hfresh2 & Hz2).
  pose proof (zapOf_extends _ _ _ _ (run_extends calls st1) Hz1) as Hz1'.
  split; [|split; [|exact Hz2]].
  - intros ->. apply zapOf_heap in Hz1' as [? Hz1']. congruence.
  - pose proof (New_extends cfg2 (run calls st1)) as Hext.
    rewrite HN2 in Hext. by apply (zapOf_extends _ _ _ _ Hext).
Qed.

(** X14: only the logging calls write.  Constructing loggers, initializing
    or reading the global logger and deriving loggers, in any number and
    order, leave the sink as it was. *)
Theorem X14_only_logging_calls_write (calls : list call) (st : State) :
  noLog calls = true -> stdout (run calls st) = stdout st.
Proof.
  revert st. induction calls as [|c calls IH]; intros st; simpl; [done|].
  intros [Hc Hcs]%andb_true_iff. apply negb_true_iff in Hc.
  by rewrite (IH _ Hcs), (exec_quiet _ _ Hc).
Qed.

(** X15: beyond the field keys, the environment alone decides how a logger
    built by [New] renders: for "production" lower-case level names,
    durations in seconds and no development mode; for anything else
    capital colored level names, durations as strings and development mode.
    Both render time as ISO 8601, callers in the short form, and end a line
    with the default line ending. *)
Theorem X15_environment_decides_rendering (cfg : Config) (st : State) :
  match New cfg st with
  | Return (Some l, _) st' =>
      exists zl,
        zapOf (Some l) st' = Some zl
        /\ (EncodeLevel (zap.coreEncoder zl), EncodeDuration (zap.coreEncoder zl),
            zap.development zl)
           = (if decide (Environment cfg = "production")
              then (LowercaseLevelEncoder, SecondsDurationEncoder, false)
              else (CapitalColorLevelEncoder, StringDurationEncoder, true))
        /\ EncodeTime (zap.coreEncoder zl) = ISO8601TimeEncoder
        /\ EncodeCaller (zap.coreEncoder zl) = ShortCallerEncoder
        /\ LineEnding (zap.coreEncoder zl) = zapcore.DefaultLineEnding
  | Return (None, _) _ => buildError (builds st) (zapConfigOf cfg) <> None
  | _ => False
  end.
Proof.
  destruct (buildError (builds st) (zapConfigOf cfg)) as [e|] eqn:Hb.
  - by rewrite (New_fail _ _ _ Hb).
  - destruct (New_ok _ _ Hb) as (l & st' & -> & _ & Hz).
    exists (constructed cfg). split; [exact Hz|].
    unfold constructed, zapConfigOf, newZapConfig.
    destruct (String.eqb_spec (Environment cfg) "production") as [->|Hne].
    + by rewrite decide_True.
    + by rewrite decide_False.
Qed.

End Package.

(* ===================================================================== *)
(** ** The claims at concrete inputs *)
(* ===================================================================== *)

Lemma bytesUnchanged_sound : unicodeSound bytesUnchanged.
Proof.
  intros s Hs. unfold bytesUnchanged.
  repeat split; intros ->; discriminate Hs.
Qed.

(** The comparison with "production" is exact: another casing and the empty
    string select the console profile. *)
Example profile_of_capitalized_Production :
  profile (zap.Encoding (newZapConfig InfoLevel (mkConfig "INFO" "Production" "svc")))
          (zap.EncoderConfig (newZapConfig InfoLevel (mkConfig "INFO" "Production" "svc")))
  = ("console", ["T"; "L"; "N"; "C"; "M"; "S"], "").
Proof. reflexivity. Qed.

Example profile_of_empty_environment :
  profile (zap.Encoding (newZapConfig InfoLevel (mkConfig "INFO" "" "svc")))
          (zap.EncoderConfig (newZapConfig InfoLevel (mkConfig "INFO" "" "svc")))
  = ("console", ["T"; "L"; "N"; "C"; "M"; "S"], "").
Proof. reflexivity. Qed.

Example resolveLevel_examples :
  map (resolveLevel bytesUnchanged) ["debug"; "Info"; "wArN"; "ERROR"; "trace"; ""; "warning"]
  = [DebugLevel; InfoLevel; WarnLevel; ErrorLevel; InfoLevel; InfoLevel; InfoLevel].
Proof. reflexivity. Qed.

(** C2 at the level string "wArn". *)
Lemma C2_witness :
  resolveLevel bytesUnchanged "wArn" = specLevel "wArn"
  /\ resolveLevel bytesUnchanged "wArn" = WarnLevel.
Proof.
  destruct (C2_level_resolution_case_insensitive bytesUnchanged "wArn"
              bytesUnchanged_sound) as (H & _ & _ & Hw & _).
  split; [exact H | apply Hw; reflexivity].
Defined.

(** C3 at a production logger for service "svc" and its child carrying
    user=alice: an Info call of the child emits one entry, with both
    permanent fields on it. *)
Lemma C3_witness :
  let cfg := mkConfig "debug" "production" "svc" in
  let st1 := stateOf (New bytesUnchanged alwaysBuilds cfg initialState) in
  let st2 := stateOf (WithContext (Some 0) [zap.String "user" "alice"] st1) in
  let out := emitted st2 (stateOf (Log (Some 1) InfoLevel "started"
                                       [zap.String "version" "1.0.0"] st2)) in
  (forall e, e ∈ out ->
             zap.String "service" "svc" ∈ Fields e
             /\ zap.String "environment" "production" ∈ Fields e)
  /\ exists e, out = [e].
Proof.
  intros cfg st1 st2 out.
  assert (New bytesUnchanged alwaysBuilds cfg initialState
          = Return (Some 0, None) st1) as HN by (vm_compute; reflexivity).
  assert (derived bytesUnchanged alwaysBuilds (Some 0) st1 (Some 1) st2) as Hd.
  { apply (derived_child bytesUnchanged alwaysBuilds (Some 0) st1 (Some 0) st1
             [zap.String "user" "alice"] (Some 1) st2);
      [apply derived_root | vm_compute; reflexivity]. }
  destruct (C3_service_environment_on_every_entry bytesUnchanged alwaysBuilds
              cfg initialState 0 st1 (Some 1) st2 HN Hd
              InfoLevel "started" [zap.String "version" "1.0.0"])
    as (Hin & Hout & _).
  split; [exact Hin | apply Hout; reflexivity].
Defined.

(** C4 at two initializations with a [Get] and a derivation in between:
    the second logger is installed, is not the first, and is what [Get]
    returns after further calls. *)
Lemma C4_witness :
  let cfg1 := mkConfig "INFO" "development" "one" in
  let cfg2 := mkConfig "ERROR" "production" "two" in
  let st1 := stateOf (InitGlobal bytesUnchanged alwaysBuilds cfg1 initialState) in
  let between := [CallGet; CallWithFields [zap.String "k" "v"]] in
  let st2 := stateOf (InitGlobal bytesUnchanged alwaysBuilds cfg2
                        (run bytesUnchanged alwaysBuilds between st1)) in
  let later := [CallGlobalLog InfoLevel "m" []; CallNew cfg1] in
  globalLogger st1 = Some 0
  /\ exists l2, globalLogger st2 = Some l2 /\ l2 <> 0
                /\ Get bytesUnchanged alwaysBuilds
                     (run bytesUnchanged alwaysBuilds later st2)
                   = Return (Some l2) (run bytesUnchanged alwaysBuilds later st2).
Proof.
  intros cfg1 cfg2 st1 between st2 later.
  split; [reflexivity|].
  destruct (proj2 (C4_InitGlobal_fails_or_replaces bytesUnchanged alwaysBuilds
                     cfg1 initialState) 0 st1 between cfg2 st2)
    as (l2 & Hg & Hne & Hget); try (vm_compute; reflexivity).
  exists l2. split; [exact Hg|]. split; [exact Hne|].
  apply Hget. reflexivity.
Defined.

(** C5 at the initial state with an engine that builds. *)
Lemma C5_witness :
  globalLogger initialState = None
  /\ exists l st1,
       Get bytesUnchanged alwaysBuilds initialState
       = Return (Some l) (setGlobalLogger (Some l) st1)
       /\ fieldsOf (Some l) (setGlobalLogger (Some l) st1)
          = Some [zap.String "service" "gath-stack";
                  zap.String "environment" "development"]
       /\ Get bytesUnchanged alwaysBuilds
            (run bytesUnchanged alwaysBuilds [CallGet; CallGlobalLog WarnLevel "m" []]
               (setGlobalLogger (Some l) st1))
          = Return (Some l)
              (run bytesUnchanged alwaysBuilds [CallGet; CallGlobalLog WarnLevel "m" []]
                 (setGlobalLogger (Some l) st1)).
Proof.
  split; [reflexivity|].
  destruct (C5_Get_installs_default_once bytesUnchanged alwaysBuilds initialState
              eq_refl eq_refl)
    as (_ & l & st1 & _ & HG & _ & Hz & _ & _ & Hf & Hlater).
  exists l, st1. split; [exact HG|].
  split; [unfold fieldsOf; rewrite Hz; reflexivity|].
  apply Hlater. reflexivity.
Defined.

(** C6 at the initial state with an engine that cannot build. *)
Lemma C6_witness :
  Get bytesUnchanged neverBuilds initialState
  = Return None (countBuild initialState)
  /\ globalLogger (countBuild initialState) = None.
Proof.
  exact (proj2 (C6_Get_swallows_construction_failure bytesUnchanged neverBuilds)
           initialState "sink unavailable" eq_refl eq_refl).
Defined.

(** With an engine that fails once, the first [Get] returns nil and the
    second one constructs and installs the default logger. *)
Example Get_retries_after_failure :
  let r1 := Get bytesUnchanged buildsLater initialState in
  let r2 := Get bytesUnchanged buildsLater (stateOf r1) in
  r1 = Return None (countBuild initialState)
  /\ globalLogger (stateOf r2) = Some 0
  /\ r2 = Return (Some 0) (stateOf r2).
Proof. vm_compute. repeat split; reflexivity. Qed.

(** C8 at a logger for service "svc", deriving with k=1 and then with k=2:
    the key k is kept twice, in the order given. *)
Lemma C8_witness :
  let cfg := mkConfig "INFO" "production" "svc" in
  let st1 := stateOf (New bytesUnchanged alwaysBuilds cfg initialState) in
  exists d2 st2,
    fieldsOf d2 st2
    = Some [zap.String "service" "svc"; zap.String "environment" "production";
            zap.String "k" "1"; zap.String "k" "2"]
    /\ emitted st2 (stateOf (Log d2 InfoLevel "m" [zap.String "k" "3"] st2))
       = [mkEntry InfoLevel "m"
            [zap.String "service" "svc"; zap.String "environment" "production";
             zap.String "k" "1"; zap.String "k" "2"; zap.String "k" "3"]
            false].
Proof.
  intros cfg st1.
  destruct (C8_derivation_appends_in_order (Some 0)
              [zap.String "k" "1"] [zap.String "k" "2"] st1
              (constructed bytesUnchanged cfg))
    as (d1 & s1 & d2 & s2 & _ & _ & Hf & Hout); [vm_compute; reflexivity|].
  exists d2, s2. split; [exact Hf|].
  exact (Hout InfoLevel "m" [zap.String "k" "3"]).
Defined.

(** C9 at a logger built with Level WARN. *)
Lemma C9_witness :
  let cfg := mkConfig "WARN" "development" "svc" in
  let st1 := stateOf (New bytesUnchanged alwaysBuilds cfg initialState) in
  emitted st1 (stateOf (Log (Some 0) DebugLevel "d" [] st1)) = []
  /\ emitted st1 (stateOf (Log (Some 0) InfoLevel "i" [] st1)) = []
  /\ emitted st1 (stateOf (Log (Some 0) WarnLevel "w" [] st1))
     = [mkEntry WarnLevel "w" (permanentFields cfg) false]
  /\ emitted st1 (stateOf (Log (Some 0) ErrorLevel "e" [] st1))
     = [mkEntry ErrorLevel "e" (permanentFields cfg) true].
Proof.
  intros cfg st1.
  assert (New bytesUnchanged alwaysBuilds cfg initialState
          = Return (Some 0, None) st1) as HN by (vm_compute; reflexivity).
  pose proof (fun lvl msg =>
    proj2 (proj2 (C9_minimum_level_filter bytesUnchanged alwaysBuilds
                    cfg initialState 0 st1 HN [] lvl msg [])) eq_refl) as H.
  split; [apply (H DebugLevel "d"); by left|].
  split; [apply (H InfoLevel "i"); by right|].
  split; [apply (H WarnLevel "w"); by left|].
  apply (H ErrorLevel "e"); by right.
Defined.

(** The scenario of the specification: a production logger at level DEBUG
    for service "svc" writes, for Info("started", version=1.0.0), one entry
    with the permanent fields before the call's field. *)
Example scenario_production_info :
  let st1 := stateOf (New bytesUnchanged alwaysBuilds
                        (mkConfig "DEBUG" "production" "svc") initialState) in
  stdout (stateOf (Log (Some 0) InfoLevel "started"
                       [zap.String "version" "1.0.0"] st1))
  = [mkEntry InfoLevel "started"
       [zap.String "service" "svc"; zap.String "environment" "production";
        zap.String "version" "1.0.0"] false].
Proof. vm_compute. reflexivity. Qed.

(** A nil logger cannot be derived from or logged through: both panic. *)
Example nil_logger_panics :
  WithContext None [] initialState = Panic initialState
  /\ Log None InfoLevel "m" [] initialState = Panic initialState.
Proof. split; reflexivity. Qed.

(* ===================================================================== *)
(** ** The further properties at concrete inputs *)
(* ===================================================================== *)

(** X2 at a development logger at level WARN and its child carrying
    request=r1: a Warn call of the child has no stack trace. *)
Lemma X2_witness :
  let cfg := mkConfig "warn" "development" "svc" in
  let st1 := stateOf (New bytesUnchanged alwaysBuilds cfg initialState) in
  let st2 := stateOf (WithContext (Some 0) [zap.String "request" "r1"] st1) in
  emitted st2 (stateOf (Log (Some 1) InfoLevel "i" [] st2)) = []
  /\ exists extra,
       emitted st2 (stateOf (Log (Some 1) WarnLevel "w" [] st2))
       = [mkEntry WarnLevel "w" (permanentFields cfg ++ extra ++ []) false].
Proof.
  intros cfg st1 st2.
  assert (New bytesUnchanged alwaysBuilds cfg initialState
          = Return (Some 0, None) st1) as HN by (vm_compute; reflexivity).
  assert (derived bytesUnchanged alwaysBuilds (Some 0) st1 (Some 1) st2) as Hd.
  { apply (derived_child bytesUnchanged alwaysBuilds (Some 0) st1 (Some 0) st1
             [zap.String "request" "r1"] (Some 1) st2);
      [apply derived_root | vm_compute; reflexivity]. }
  destruct (X2_derived_logger_keeps_settings bytesUnchanged alwaysBuilds
              cfg initialState 0 st1 (Some 1) st2 HN Hd)
    as (zl & extra & _ & _ & _ & _ & _ & _ & _ & Hout).
  split; [exact (Hout InfoLevel "i" [])|].
  exists extra. exact (Hout WarnLevel "w" []).
Defined.

(** X3 at a package with a logger installed and an engine that then fails. *)
Lemma X3_witness :
  let st1 := stateOf (Get bytesUnchanged buildsLater
                        (countBuild initialState)) in
  let failing : nat -> zap.Config -> option error :=
    fun n _ => if Nat.eqb n 2 then Some "sink unavailable" else None in
  let st2 := stateOf (InitGlobal bytesUnchanged failing
                        (mkConfig "DEBUG" "production" "svc") st1) in
  globalLogger st1 = Some 0
  /\ globalLogger st2 = Some 0
  /\ Get bytesUnchanged failing st2 = Return (Some 0) st2.
Proof.
  intros st1 failing st2. split; [reflexivity|].
  destruct (X3_failed_InitGlobal_keeps_previous bytesUnchanged failing
              (mkConfig "DEBUG" "production" "svc") st1 "sink unavailable"
              eq_refl)
    as (Hg & _ & _ & _ & HGet).
  split; [exact Hg | apply HGet; reflexivity].
Defined.

(** X4 at the initial state with an engine whose first build fails. *)
Lemma X4_witness :
  Get bytesUnchanged buildsLater initialState
  = Return None (countBuild initialState)
  /\ exists l st2,
       Get bytesUnchanged buildsLater (countBuild initialState)
       = Return (Some l) st2
       /\ globalLogger st2 = Some l.
Proof.
  destruct (X4_Get_retries_after_failure bytesUnchanged buildsLater initialState
              "sink unavailable" eq_refl eq_refl eq_refl)
    as (H1 & l & st2 & H2 & Hg & _).
  split; [exact H1|]. exists l, st2. auto.
Defined.

(** X5 at the initial state: [Debug] writes nothing, [Error] one entry. *)
Lemma X5_witness :
  emitted initialState
    (stateOf (Debug bytesUnchanged alwaysBuilds "d" [] initialState)) = []
  /\ emitted initialState
       (stateOf (Error bytesUnchanged alwaysBuilds "e"
                   [zap.String "k" "v"] initialState))
     = [mkEntry ErrorLevel "e"
          [zap.String "service" "gath-stack";
           zap.String "environment" "development"; zap.String "k" "v"] true].
Proof.
  pose proof (X5_package_calls_use_default_logger bytesUnchanged alwaysBuilds
                initialState eq_refl eq_refl) as H.
  split; [exact (proj1 (H DebugLevel "d" [])) |
          exact (proj1 (H ErrorLevel "e" [zap.String "k" "v"]))].
Defined.

(** X6 at the initial state with an engine that cannot build. *)
Lemma X6_witness :
  Info bytesUnchanged neverBuilds "m" [] initialState
  = Panic (countBuild initialState)
  /\ Fatal bytesUnchanged neverBuilds "m" [] initialState
     = Panic (countBuild initialState)
  /\ WithFields bytesUnchanged neverBuilds [zap.String "k" "v"] initialState
     = Panic (countBuild initialState).
Proof.
  destruct (X6_package_calls_panic_without_logger bytesUnchanged neverBuilds
              initialState "sink unavailable" eq_refl eq_refl)
    as (HL & HW & _).
  split; [exact (HL InfoLevel "m" [])|].
  split; [exact (HL FatalLevel "m" []) | exact (HW [zap.String "k" "v"])].
Defined.

(** X7 after [InitGlobal] with level ERROR and a [WithFields] call. *)
Lemma X7_witness :
  let cfg := mkConfig "ERROR" "production" "svc" in
  let st1 := stateOf (InitGlobal bytesUnchanged alwaysBuilds cfg initialState) in
  let st2 := run bytesUnchanged alwaysBuilds
               [CallWithFields [zap.String "k" "v"]] st1 in
  Fatal bytesUnchanged alwaysBuilds "bye" [] st2
  = Exit (write (mkEntry FatalLevel "bye" (permanentFields cfg ++ []) true) st2)
  /\ Warn bytesUnchanged alwaysBuilds "w" [] st2 = Return tt st2.
Proof.
  intros cfg st1 st2.
  assert (InitGlobal bytesUnchanged alwaysBuilds cfg initialState
          = Return None st1) as HI by (vm_compute; reflexivity).
  destruct (X7_package_calls_after_InitGlobal bytesUnchanged alwaysBuilds
              cfg initialState st1 [CallWithFields [zap.String "k" "v"]]
              HI eq_refl "bye" []) as (HF & _).
  split; [exact HF|].
  destruct (X7_package_calls_after_InitGlobal bytesUnchanged alwaysBuilds
              cfg initialState st1 [CallWithFields [zap.String "k" "v"]]
              HI eq_refl "w" []) as (_ & HL).
  apply (HL WarnLevel). set_solver.
Defined.

(** X8 at the default logger. *)
Lemma X8_witness :
  let st := stateOf (Get bytesUnchanged alwaysBuilds initialState) in
  exists d st',
    WithFields bytesUnchanged alwaysBuilds [zap.String "component" "auth"] st
    = Return (Some d) st'
    /\ d <> 0
    /\ fieldsOf (Some d) st'
       = Some [zap.String "service" "gath-stack";
               zap.String "environment" "development";
               zap.String "component" "auth"]
    /\ fieldsOf (Some 0) st'
       = Some [zap.String "service" "gath-stack";
               zap.String "environment" "development"].
Proof.
  intros st.
  destruct (X8_WithFields_derives_from_global bytesUnchanged alwaysBuilds st 0
              (constructed bytesUnchanged (defaultConfig))
              [zap.String "component" "auth"])
    as (d & st' & HW & _ & Hne & Hd & Hl & _); try (vm_compute; reflexivity).
  exists d, st'. auto.
Defined.

(** X10 at the empty environment and at one that sets LOG_LEVEL to the
    empty string and an unrelated variable. *)
Lemma X10_witness :
  FromEnv ∅ = defaultConfig
  /\ FromEnv (<["LOG_LEVEL" := ""]> (<["HOME" := "/root"]> ∅)) = defaultConfig.
Proof.
  split.
  - exact (proj1 (X10_FromEnv_default_is_Get_default bytesUnchanged alwaysBuilds
                    ∅ eq_refl eq_refl eq_refl)).
  - exact (proj1 (X10_FromEnv_default_is_Get_default bytesUnchanged alwaysBuilds
                    (<["LOG_LEVEL" := ""]> (<["HOME" := "/root"]> ∅))
                    eq_refl eq_refl eq_refl)).
Defined.

(** X12 at a logger built before the package was re-initialized and logged
    through. *)
Lemma X12_witness :
  let cfg := mkConfig "INFO" "production" "svc" in
  let st := stateOf (New bytesUnchanged alwaysBuilds cfg initialState) in
  let calls := [CallInitGlobal (mkConfig "DEBUG" "development" "other");
                CallWithContext (Some 0) [zap.String "k" "v"];
                CallGlobalLog ErrorLevel "e" []] in
  fieldsOf (Some 0) (run bytesUnchanged alwaysBuilds calls st)
  = Some (permanentFields cfg).
Proof.
  intros cfg st calls.
  destruct (X12_loggers_are_immutable bytesUnchanged alwaysBuilds (Some 0)
              (constructed bytesUnchanged cfg) st calls) as (Hz & _);
    [vm_compute; reflexivity|].
  unfold fieldsOf. rewrite Hz. reflexivity.
Defined.

(** X13 at two loggers built from the same config. *)
Lemma X13_witness :
  let cfg := mkConfig "INFO" "production" "svc" in
  let st1 := stateOf (New bytesUnchanged alwaysBuilds cfg initialState) in
  let st2 := stateOf (New bytesUnchanged alwaysBuilds cfg st1) in
  0 <> 1
  /\ zapOf (Some 0) st2 = Some (constructed bytesUnchanged cfg)
  /\ zapOf (Some 1) st2 = Some (constructed bytesUnchanged cfg).
Proof.
  intros cfg st1 st2.
  apply (X13_New_instances_are_distinct bytesUnchanged alwaysBuilds
           cfg cfg initialState st1 st2 0 1 []); vm_compute; reflexivity.
Defined.

(** X14 at a sequence that builds, initializes, reads and derives. *)
Lemma X14_witness :
  stdout (run bytesUnchanged alwaysBuilds
            [CallGet; CallNew (mkConfig "DEBUG" "production" "svc");
             CallInitGlobal (mkConfig "WARN" "development" "svc");
             CallWithFields [zap.String "k" "v"];
             CallWithContext (Some 0) [zap.String "k" "v"]]
            initialState)
  = [].
Proof.
  exact (X14_only_logging_calls_write bytesUnchanged alwaysBuilds
           [CallGet; CallNew (mkConfig "DEBUG" "production" "svc");
            CallInitGlobal (mkConfig "WARN" "development" "svc");
            CallWithFields [zap.String "k" "v"];
            CallWithContext (Some 0) [zap.String "k" "v"]]
           initialState eq_refl).
Defined.
